(** * Ultra Multiplexer: a shallow embedding of [main.go]

    The program binds one TCP listener, puts a connection multiplexer
    (cmux) on top of it, serves HTTP and gRPC from the two virtual
    listeners, waits until both answer, and then dials a loop-back gRPC
    client used by the [/grpc-call] HTTP handler.

    Go strings are byte sequences and are modelled by [string]; Go maps
    by [gmap]; a [nil] pointer by [None]; an [error] by [option string]
    ([None] is [nil]).  The struct [UltraMultiplexer] is a record that is
    threaded through a small state monad which also records every
    externally visible action together with the state it leaves behind.
    The network (bind, probes, dial, loop-back call) is an explicit
    [World] argument. *)

From Stdlib Require Import String Ascii List Bool Arith Lia.
From stdpp Require Import base option gmap strings.
Import ListNotations.

Local Open Scope string_scope.
Local Open Scope list_scope.

(** ** Package [strings] *)

Module strings.

(** [utf8.RuneSelf]: bytes below it are single-byte runes. *)
Definition RuneSelf : nat := 128.

Definition isLower (c : ascii) : bool :=
  (nat_of_ascii "a"%char <=? nat_of_ascii c)%nat
  && (nat_of_ascii c <=? nat_of_ascii "z"%char)%nat.

(** [c -= 'a' - 'A'] on a byte already known to be in ['a'..'z']. *)
Definition upperByte (c : ascii) : ascii :=
  if isLower c
  then ascii_of_nat (nat_of_ascii c - (nat_of_ascii "a"%char - nat_of_ascii "A"%char))
  else c.

(** First loop of [ToUpper]: it stops at the first byte [>= RuneSelf]
    and otherwise accumulates [hasLower]. *)
Fixpoint scan (s : string) (hasLower : bool) : bool * bool :=
  match s with
  | EmptyString => (true, hasLower)
  | String c s' =>
      if (RuneSelf <=? nat_of_ascii c)%nat then (false, hasLower)
      else scan s' (hasLower || isLower c)
  end.

Fixpoint mapBytes (f : ascii -> ascii) (s : string) : string :=
  match s with
  | EmptyString => EmptyString
  | String c s' => String (f c) (mapBytes f s')
  end.

Section ToUpper.
(** [Map(unicode.ToUpper, s)], the path taken for input that is not
    pure ASCII; the Unicode tables are not part of this program. *)
Variable unicodeMapUpper : string -> string.

Definition ToUpper (s : string) : string :=
  let '(isASCII, hasLower) := scan s false in
  if isASCII then
    if negb hasLower then s else mapBytes upperByte s
  else unicodeMapUpper s.
End ToUpper.

(** The specification's word for it, on ASCII text: every letter
    ['a'..'z'] becomes the corresponding capital, all else is kept. *)
Fixpoint uppercase (s : string) : string :=
  match s with
  | EmptyString => EmptyString
  | String c s' =>
      let n := nat_of_ascii c in
      String (if (97 <=? n)%nat && (n <=? 122)%nat then ascii_of_nat (n - 32) else c)
             (uppercase s')
  end.

Fixpoint allASCII (s : string) : bool :=
  match s with
  | EmptyString => true
  | String c s' => (nat_of_ascii c <? 128)%nat && allASCII s'
  end.

End strings.

(** ** Resources owned by the multiplexer *)

(** A closeable resource (listener, server, client connection). Closing
    is the only transition the program performs on it; closing a closed
    resource leaves it closed (the library call then reports an error or
    does nothing, and [Stop] ignores the result either way). *)
Inductive Handle : Type := Open | Closed.

Definition closeHandle (h : Handle) : Handle := Closed.

(** [sync.RWMutex]. *)
Inductive RWMutex : Type :=
| Unlocked
| WriteLocked
| ReadLocked (readers : nat).   (* [S readers] holders *)

(** ** Package [cmux] (the part the program uses) *)

Module cmux.

(** The matchers the program constructs. *)
Inductive Matcher : Type :=
| HTTP2MatchHeaderFieldSendSettings (name value : string)
| Any.

(** A virtual listener is identified by the position at which it was
    registered. *)
Definition Listener := nat.

(** [matchersListener]: a group of matchers and the listener fed by
    them. *)
Record matchersListener : Type := {
  ss : list Matcher;
  l : Listener
}.

(** [cMux]: the root listener is the one owned by the multiplexer
    record; [sls] is the registration sequence. *)
Record CMux : Type := {
  sls : list matchersListener
}.

Definition New : CMux := {| sls := [] |}.

(** [Match] and [MatchWithWriters] both append one group to [sls] and
    hand back the fresh listener. *)
Definition Match (m : CMux) (matchers : list Matcher) : CMux * Listener :=
  let ml := length (sls m) in
  ({| sls := sls m ++ [ {| ss := matchers; l := ml |} ] |}, ml).

Definition MatchWithWriters := Match.

Section Serve.
(** A sniffed connection, and the library's decision whether it opens
    with the HTTP/2 preface and carries the header field
    [name: value]. *)
Variable Conn : Type.
Variable http2HeaderField : string -> string -> Conn -> bool.

Definition matches (m : Matcher) (c : Conn) : bool :=
  match m with
  | HTTP2MatchHeaderFieldSendSettings name value => http2HeaderField name value c
  | Any => true
  end.

(** [serve(c)]: groups in registration order, matchers of a group in
    order, the first match delivers the connection; with no match the
    connection is closed ([None]). *)
Fixpoint serve (groups : list matchersListener) (c : Conn) : option Listener :=
  match groups with
  | [] => None
  | sl :: rest =>
      if existsb (fun s => matches s c) (ss sl) then Some (l sl)
      else serve rest c
  end.
End Serve.

End cmux.

(** ** Messages of the [pb] package *)

Record HelloRequest : Type := { Name : string }.
Record HelloReply : Type := { Message : string }.
Record DataRequest : Type := { Data : string }.
Record DataReply : Type := { Processed : string }.

(** A Go [error]; [None] is [nil]. *)
Definition error := option string.

(** The stub returned by [pb.NewUltraServiceClient(conn)]; the connection
    it wraps is the one stored in [grpcConn]. *)
Inductive UltraServiceClient : Type := NewUltraServiceClient.

(** [http.Client]; only its timeout (seconds) is configured. *)
Record Client : Type := { Timeout : nat }.

(** ** The struct [UltraMultiplexer] *)

Record UltraMultiplexer : Type := {
  port : string;
  listener : option Handle;
  mux : option cmux.CMux;
  httpServer : option Handle;
  grpcServer : option Handle;
  httpClient : option Client;
  grpcClient : option UltraServiceClient;
  grpcConn : option Handle;
  mu : RWMutex;
  serverReady : bool;
  muxStarted : bool
}.

Definition NewUltraMultiplexer (port : string) : UltraMultiplexer := {|
  port := port;
  listener := None;
  mux := None;
  httpServer := None;
  grpcServer := None;
  httpClient := Some {| Timeout := 10 |};
  grpcClient := None;
  grpcConn := None;
  mu := Unlocked;
  serverReady := false;
  muxStarted := false
|}.

(** Field assignments [um.f = v]. *)
Definition set_listener (v : option Handle) (s : UltraMultiplexer) :=
  {| port := port s; listener := v; mux := mux s; httpServer := httpServer s;
     grpcServer := grpcServer s; httpClient := httpClient s; grpcClient := grpcClient s;
     grpcConn := grpcConn s; mu := mu s; serverReady := serverReady s;
     muxStarted := muxStarted s |}.
Definition set_mux (v : option cmux.CMux) (s : UltraMultiplexer) :=
  {| port := port s; listener := listener s; mux := v; httpServer := httpServer s;
     grpcServer := grpcServer s; httpClient := httpClient s; grpcClient := grpcClient s;
     grpcConn := grpcConn s; mu := mu s; serverReady := serverReady s;
     muxStarted := muxStarted s |}.
Definition set_httpServer (v : option Handle) (s : UltraMultiplexer) :=
  {| port := port s; listener := listener s; mux := mux s; httpServer := v;
     grpcServer := grpcServer s; httpClient := httpClient s; grpcClient := grpcClient s;
     grpcConn := grpcConn s; mu := mu s; serverReady := serverReady s;
     muxStarted := muxStarted s |}.
Definition set_grpcServer (v : option Handle) (s : UltraMultiplexer) :=
  {| port := port s; listener := listener s; mux := mux s; httpServer := httpServer s;
     grpcServer := v; httpClient := httpClient s; grpcClient := grpcClient s;
     grpcConn := grpcConn s; mu := mu s; serverReady := serverReady s;
     muxStarted := muxStarted s |}.
Definition set_grpcClient (v : option UltraServiceClient) (s : UltraMultiplexer) :=
  {| port := port s; listener := listener s; mux := mux s; httpServer := httpServer s;
     grpcServer := grpcServer s; httpClient := httpClient s; grpcClient := v;
     grpcConn := grpcConn s; mu := mu s; serverReady := serverReady s;
     muxStarted := muxStarted s |}.
Definition set_grpcConn (v : option Handle) (s : UltraMultiplexer) :=
  {| port := port s; listener := listener s; mux := mux s; httpServer := httpServer s;
     grpcServer := grpcServer s; httpClient := httpClient s; grpcClient := grpcClient s;
     grpcConn := v; mu := mu s; serverReady := serverReady s;
     muxStarted := muxStarted s |}.
Definition set_mu (v : RWMutex) (s : UltraMultiplexer) :=
  {| port := port s; listener := listener s; mux := mux s; httpServer := httpServer s;
     grpcServer := grpcServer s; httpClient := httpClient s; grpcClient := grpcClient s;
     grpcConn := grpcConn s; mu := v; serverReady := serverReady s;
     muxStarted := muxStarted s |}.
Definition set_serverReady (v : bool) (s : UltraMultiplexer) :=
  {| port := port s; listener := listener s; mux := mux s; httpServer := httpServer s;
     grpcServer := grpcServer s; httpClient := httpClient s; grpcClient := grpcClient s;
     grpcConn := grpcConn s; mu := mu s; serverReady := v;
     muxStarted := muxStarted s |}.
Definition set_muxStarted (v : bool) (s : UltraMultiplexer) :=
  {| port := port s; listener := listener s; mux := mux s; httpServer := httpServer s;
     grpcServer := grpcServer s; httpClient := httpClient s; grpcClient := grpcClient s;
     grpcConn := grpcConn s; mu := mu s; serverReady := serverReady s;
     muxStarted := v |}.

(** ** The world outside the process

    Time is counted in seconds since the process started; network
    round-trips are taken to be instantaneous, [time.Sleep] is what
    advances the clock. *)

(** What an upstream answers to [httpClient.Get(target)]. *)
Record Response : Type := {
  StatusCode : nat;
  RespHeader : gmap string (list string);
  RespBody : string
}.

Record World : Type := {
  (** [net.Listen("tcp", addr)]: the error, if any. *)
  listenErr : string -> error;
  (** At time [t], does [GET url] with a 1-second timeout return without
      error? *)
  httpAnswers : nat -> string -> bool;
  (** At time [t], does a blocking dial of [target] complete within one
      second? *)
  grpcAnswers : nat -> string -> bool;
  (** The 10-second blocking dial of [initGRPCClient] at time [t]. *)
  dialErr : nat -> string -> error;
  (** Transport failure of the loop-back [SayHello] call at time [t]. *)
  callErr : nat -> HelloRequest -> error;
  (** [httpClient.Get(target)] of the proxy handler. *)
  fetch : nat -> string -> Response + string;
  (** [time.Now().Format(time.RFC3339)]. *)
  rfc3339 : nat -> string
}.

(** ** Observable actions *)

Inductive Task : Type :=
| HTTPServe (l : cmux.Listener)     (* [um.httpServer.Serve(httpListener)] *)
| GRPCServe (l : cmux.Listener)     (* [um.grpcServer.Serve(grpcListener)] *)
| MuxServe.                         (* [um.mux.Serve()] *)

Inductive Component : Type := TheGrpcConn | TheHttpServer | TheGrpcServer | TheListener.

(** The fields of the struct that are assigned after construction. *)
Inductive Field : Type :=
| FListener | FMux | FHttpServer | FGrpcServer
| FGrpcConn | FGrpcClient | FServerReady | FMuxStarted.

Inductive Event : Type :=
| EvListen (addr : string) (err : error)
| EvRegister (matchers : list cmux.Matcher) (l : cmux.Listener)
| EvGo (t : Task)
| EvLock
| EvUnlock
| EvRLock
| EvRUnlock
| EvStore (f : Field)
| EvProbeHTTP (url : string) (ok : bool)
| EvProbeGRPC (target : string) (ok : bool)
| EvSleep (seconds : nat)
| EvDial (target : string) (err : error)
| EvCall (req : HelloRequest) (err : error)
| EvClose (c : Component).

(** ** The monad: state, clock, trace, and the ways not to return *)

Record Machine : Type := { um : UltraMultiplexer; now : nat }.

(** One entry of the trace: the action and the machine right after it. *)
Definition Step : Type := Event * Machine.

Inductive Outcome (A : Type) : Type :=
| Returned (a : A)
| Blocked                  (* parked for good: [select {}], or a lock held elsewhere *)
| Crashed (msg : string).  (* run-time panic or [log.Fatalf] *)
Arguments Returned {A} a.
Arguments Blocked {A}.
Arguments Crashed {A} msg.

Definition M (A : Type) : Type := Machine -> Outcome A * Machine * list Step.

Definition ret {A} (a : A) : M A := fun m => (Returned a, m, []).

Definition bind {A B} (c : M A) (k : A -> M B) : M B := fun m =>
  match c m with
  | (Returned a, m1, t1) =>
      match k a m1 with
      | (o, m2, t2) => (o, m2, t1 ++ t2)
      end
  | (Blocked, m1, t1) => (Blocked, m1, t1)
  | (Crashed msg, m1, t1) => (Crashed msg, m1, t1)
  end.

Declare Scope go_scope.
Delimit Scope go_scope with go.
Notation "x <- c ;; k" := (bind c (fun x => k))
  (at level 100, c at next level, right associativity) : go_scope.
Notation "c ;; k" := (bind c (fun _ => k))
  (at level 100, right associativity) : go_scope.
Local Open Scope go_scope.

Definition get : M UltraMultiplexer := fun m => (Returned (um m), m, []).
Definition clock : M nat := fun m => (Returned (now m), m, []).
Definition block {A} : M A := fun m => (Blocked, m, []).
Definition crash {A} (msg : string) : M A := fun m => (Crashed msg, m, []).

(** Perform [e]; the machine becomes [f] of itself. *)
Definition act (e : Event) (f : UltraMultiplexer -> UltraMultiplexer) : M unit := fun m =>
  let m' := {| um := f (um m); now := now m |} in
  (Returned tt, m', [(e, m')]).

Definition emit (e : Event) : M unit := act e (fun s => s).

(** [time.Sleep(n * time.Second)]. *)
Definition Sleep (n : nat) : M unit := fun m =>
  let m' := {| um := um m; now := now m + n |} in
  (Returned tt, m', [(EvSleep n, m')]).

(** [go func() { ... }()]. *)
Definition go (t : Task) : M unit := emit (EvGo t).

(** *** [um.mu] *)

Definition Lock : M unit :=
  s <- get ;;
  match mu s with
  | Unlocked => act EvLock (set_mu WriteLocked)
  | _ => block
  end.

Definition Unlock : M unit :=
  s <- get ;;
  match mu s with
  | WriteLocked => act EvUnlock (set_mu Unlocked)
  | _ => crash "sync: Unlock of unlocked RWMutex"
  end.

Definition RLock : M unit :=
  s <- get ;;
  match mu s with
  | Unlocked => act EvRLock (set_mu (ReadLocked 0))
  | ReadLocked n => act EvRLock (set_mu (ReadLocked (S n)))
  | WriteLocked => block
  end.

Definition RUnlock : M unit :=
  s <- get ;;
  match mu s with
  | ReadLocked 0 => act EvRUnlock (set_mu Unlocked)
  | ReadLocked (S n) => act EvRUnlock (set_mu (ReadLocked n))
  | _ => crash "sync: RUnlock of unlocked RWMutex"
  end.

(** ** Package [net/http] and [net/url] (the part the handlers use) *)

Module http.

Definition StatusOK : nat := 200.
Definition StatusBadRequest : nat := 400.
Definition StatusInternalServerError : nat := 500.
Definition StatusServiceUnavailable : nat := 503.

(** What is written to the body: text, or the JSON encoding of a
    string map (kept as the map that was encoded). *)
Inductive Payload : Type :=
| Text (s : string)
| JSON (o : gmap string string).

(** An [http.ResponseWriter]: [status] is [None] until the header has
    been written. *)
Record ResponseWriter : Type := {
  header : gmap string (list string);
  status : option nat;
  body : list Payload
}.

Definition NewResponse : ResponseWriter :=
  {| header := ∅; status := None; body := [] |}.

Definition HeaderSet (k v : string) (w : ResponseWriter) : ResponseWriter :=
  {| header := <[k := [v]]> (header w); status := status w; body := body w |}.

Definition HeaderAdd (k v : string) (w : ResponseWriter) : ResponseWriter :=
  {| header := <[k := default [] (header w !! k) ++ [v]]> (header w);
     status := status w; body := body w |}.

Definition HeaderDel (k : string) (w : ResponseWriter) : ResponseWriter :=
  {| header := delete k (header w); status := status w; body := body w |}.

(** The first [WriteHeader] wins; later ones are superfluous. *)
Definition WriteHeader (code : nat) (w : ResponseWriter) : ResponseWriter :=
  match status w with
  | Some _ => w
  | None => {| header := header w; status := Some code; body := body w |}
  end.

(** [Write] sends [200] first if no header was written yet. *)
Definition Write (p : Payload) (w : ResponseWriter) : ResponseWriter :=
  let w' := WriteHeader StatusOK w in
  {| header := header w'; status := status w'; body := body w' ++ [p] |}.

(** [http.Error(w, msg, code)]. *)
Definition Error (w : ResponseWriter) (msg : string) (code : nat) : ResponseWriter :=
  let w := HeaderDel "Content-Length" w in
  let w := HeaderSet "Content-Type" "text/plain; charset=utf-8" w in
  let w := HeaderSet "X-Content-Type-Options" "nosniff" w in
  let w := WriteHeader code w in
  Write (Text (msg +:+ String "010"%char EmptyString)) w.

(** [json.NewEncoder(w).Encode(o)]. *)
Definition Encode (o : gmap string string) (w : ResponseWriter) : ResponseWriter :=
  Write (JSON o) w.

(** [url.Values.Get]: the first value of the key, or the empty
    string. *)
Definition Get (v : gmap string (list string)) (key : string) : string :=
  match v !! key with
  | Some (x :: _) => x
  | _ => ""
  end.

(** The parts of [*http.Request] the handlers read; [Query] is
    [r.URL.Query()]. *)
Record Request : Type := {
  Method : string;
  Path : string;
  Query : gmap string (list string)
}.

End http.

Import http.

(** ** The gRPC service *)

(** [fmt.Sprintf("Hello %s from Ultra Multiplexer!", req.Name)] *)
Definition SayHello (req : HelloRequest) : HelloReply * error :=
  let message := "Hello " +:+ Name req +:+ " from Ultra Multiplexer!" in
  ({| Message := message |}, None).

Section ProcessData.
Variable unicodeMapUpper : string -> string.

Definition ProcessData (req : DataRequest) : DataReply * error :=
  let processed := strings.ToUpper unicodeMapUpper (Data req) in
  ({| Processed := processed |}, None).
End ProcessData.

(** ** The orchestrator *)

Definition store (f : Field) (upd : UltraMultiplexer -> UltraMultiplexer) : M unit :=
  act (EvStore f) upd.

(** [um.mux.Match(...)] / [um.mux.MatchWithWriters(...)] on the mux the
    record points to. *)
Definition muxMatch (matchers : list cmux.Matcher) : M cmux.Listener :=
  s <- get ;;
  match mux s with
  | None => crash "invalid memory address or nil pointer dereference"
  | Some m =>
      let '(m', ml) := cmux.Match m matchers in
      act (EvRegister matchers ml) (set_mux (Some m')) ;;
      ret ml
  end.

Definition Initialize (w : World) : M error :=
  s <- get ;;
  let addr := ":" +:+ port s in
  match listenErr w addr with
  | Some e =>
      emit (EvListen addr (Some e)) ;;
      ret (Some ("failed to create listener: " +:+ e))
  | None =>
      emit (EvListen addr None) ;;
      store FListener (set_listener (Some Open)) ;;
      store FMux (set_mux (Some cmux.New)) ;;
      grpcListener <-
        muxMatch [cmux.HTTP2MatchHeaderFieldSendSettings "content-type" "application/grpc"] ;;
      httpListener <- muxMatch [cmux.Any] ;;
      store FHttpServer (set_httpServer (Some Open)) ;;
      store FGrpcServer (set_grpcServer (Some Open)) ;;
      go (HTTPServe httpListener) ;;
      go (GRPCServe grpcListener) ;;
      ret None
  end.

Definition startMux : M unit :=
  Lock ;;
  s <- get ;;
  if muxStarted s then
    Unlock
  else
    store FMuxStarted (set_muxStarted true) ;;
    Unlock ;;
    go MuxServe.

Definition checkHTTPReady (w : World) : M bool :=
  s <- get ;;
  t <- clock ;;
  let url := "http://localhost:" +:+ port s +:+ "/health" in
  let ok := httpAnswers w t url in
  emit (EvProbeHTTP url ok) ;;
  ret ok.

Definition checkGRPCReady (w : World) : M bool :=
  s <- get ;;
  t <- clock ;;
  let target := "localhost:" +:+ port s in
  let ok := grpcAnswers w t target in
  emit (EvProbeGRPC target ok) ;;
  ret ok.

(** The retry budget of [waitForServerReady]. *)
Definition maxAttempts : nat := 20.

(** The loop [for attempts := 0; attempts < 20; attempts++], by the
    number of iterations still allowed ([20 - attempts]). *)
Fixpoint waitLoop (w : World) (remaining : nat) : M error :=
  match remaining with
  | 0 => ret (Some "servers not ready after 20 attempts")
  | S remaining' =>
      httpReady <- checkHTTPReady w ;;
      if negb httpReady then
        Sleep 1 ;;
        waitLoop w remaining'
      else
        grpcReady <- checkGRPCReady w ;;
        if negb grpcReady then
          Sleep 1 ;;
          waitLoop w remaining'
        else
          ret None
  end.

Definition waitForServerReady (w : World) : M error := waitLoop w maxAttempts.

Definition initGRPCClient (w : World) : M error :=
  s <- get ;;
  t <- clock ;;
  let target := "localhost:" +:+ port s in
  match dialErr w t target with
  | Some e =>
      emit (EvDial target (Some e)) ;;
      ret (Some ("failed to connect gRPC client: " +:+ e))
  | None =>
      emit (EvDial target None) ;;
      store FGrpcConn (set_grpcConn (Some Open)) ;;
      store FGrpcClient (set_grpcClient (Some NewUltraServiceClient)) ;;
      store FServerReady (set_serverReady true) ;;
      ret None
  end.

(** [defer um.mu.RUnlock()] runs once the result has been read. *)
Definition isGRPCClientReady : M bool :=
  RLock ;;
  s <- get ;;
  RUnlock ;;
  ret (serverReady s).

Definition Start (w : World) : M error :=
  startMux ;;
  err <- waitForServerReady w ;;
  match err with
  | Some e => ret (Some ("servers not ready: " +:+ e))
  | None =>
      err <- initGRPCClient w ;;
      match err with
      | Some e => ret (Some ("failed to initialize gRPC client: " +:+ e))
      | None => block    (* [select {}] *)
      end
  end.

(** [if um.x != nil { um.x.Close() }] *)
Definition closeIfSet (c : Component) (field : UltraMultiplexer -> option Handle)
    (set : option Handle -> UltraMultiplexer -> UltraMultiplexer) : M unit :=
  s <- get ;;
  match field s with
  | Some h => act (EvClose c) (set (Some (closeHandle h)))
  | None => ret tt
  end.

Definition Stop : M error :=
  Lock ;;
  closeIfSet TheGrpcConn grpcConn set_grpcConn ;;
  closeIfSet TheHttpServer httpServer set_httpServer ;;
  closeIfSet TheGrpcServer grpcServer set_grpcServer ;;
  closeIfSet TheListener listener set_listener ;;
  Unlock ;;                 (* deferred *)
  ret None.

(** [log.Fatalf]: the process exits at once; nothing deferred runs. *)
Definition Fatalf {A} (msg : string) : M A := crash msg.

Definition main_body (w : World) : M unit :=
  err <- Initialize w ;;
  match err with
  | Some e => Fatalf ("Failed to initialize: " +:+ e)
  | None =>
      err <- Start w ;;
      match err with
      | Some e => Fatalf ("Failed to start: " +:+ e)
      | None => ret tt
      end
  end.

Definition main (w : World) : Outcome unit * Machine * list Step :=
  main_body w {| um := NewUltraMultiplexer "8080"; now := 0 |}.

(** ** The HTTP handler *)

(** [h.multiplexer.grpcClient.SayHello(ctx, req)]: the stub sends the
    request through the port to the process's own gRPC server; either
    the transport fails, or the server's [SayHello] answers. *)
Definition clientSayHello (w : World) (req : HelloRequest) : M (option HelloReply * error) :=
  s <- get ;;
  t <- clock ;;
  match grpcClient s with
  | None => crash "invalid memory address or nil pointer dereference"
  | Some NewUltraServiceClient =>
      match callErr w t req with
      | Some e =>
          emit (EvCall req (Some e)) ;;
          ret (None, Some e)
      | None =>
          let '(reply, err) := SayHello req in
          emit (EvCall req err) ;;
          ret (match err with None => Some reply | Some _ => None end, err)
      end
  end.

Definition healthCheck (w : World) (rw : ResponseWriter) (r : Request) : M ResponseWriter :=
  t <- clock ;;
  let rw := HeaderSet "Content-Type" "application/json" rw in
  ret (Encode (<["status" := "ok"]>
              (<["service" := "ultra-multiplexer"]>
              (<["timestamp" := rfc3339 w t]> ∅))) rw).

Definition proxyRequest (w : World) (rw : ResponseWriter) (r : Request) : M ResponseWriter :=
  let target := Get (Query r) "target" in
  if String.eqb target "" then
    ret (Error rw "target parameter required" StatusBadRequest)
  else
    s <- get ;;
    t <- clock ;;
    match httpClient s with
    | None => crash "invalid memory address or nil pointer dereference"
    | Some _ =>
        match fetch w t target with
        | inr e => ret (Error rw e StatusInternalServerError)
        | inl resp =>
            let rw :=
              map_fold (fun key values rw => foldl (fun rw value => HeaderAdd key value rw) rw values)
                       rw (RespHeader resp) in
            let rw := WriteHeader (StatusCode resp) rw in
            ret (Write (Text (RespBody resp)) rw)
        end
    end.

Definition callGRPC (w : World) (rw : ResponseWriter) (r : Request) : M ResponseWriter :=
  ready <- isGRPCClientReady ;;
  if negb ready then
    ret (Error rw "gRPC client not ready" StatusServiceUnavailable)
  else
    let name := Get (Query r) "name" in
    let name := if String.eqb name "" then "World" else name in
    res <- clientSayHello w {| Name := name |} ;;
    let '(reply, err) := res in
    match err with
    | Some e =>
        ret (Error rw ("gRPC call failed: " +:+ e) StatusInternalServerError)
    | None =>
        match reply with
        | None => crash "invalid memory address or nil pointer dereference"
        | Some reply =>
            let rw := HeaderSet "Content-Type" "application/json" rw in
            ret (Encode (<["grpc_response" := Message reply]> ∅) rw)
        end
    end.

Definition defaultHandler (rw : ResponseWriter) (r : Request) : M ResponseWriter :=
  let rw := HeaderSet "Content-Type" "application/json" rw in
  ret (Encode (<["message" := "Ultra Multiplexer HTTP Server"]>
              (<["method" := Method r]>
              (<["path" := Path r]> ∅))) rw).

Definition ServeHTTP (w : World) (rw : ResponseWriter) (r : Request) : M ResponseWriter :=
  if String.eqb (Path r) "/health" then healthCheck w rw r
  else if String.eqb (Path r) "/proxy" then proxyRequest w rw r
  else if String.eqb (Path r) "/grpc-call" then callGRPC w rw r
  else defaultHandler rw r.

(** ** Reading a trace *)

Definition events (t : list Step) : list Event := map fst t.

Definition isClose (e : Event) : bool :=
  match e with EvClose _ => true | _ => false end.

Definition isProbe (e : Event) : bool :=
  match e with EvProbeHTTP _ _ | EvProbeGRPC _ _ => true | _ => false end.

Definition isHTTPProbe (e : Event) : bool :=
  match e with EvProbeHTTP _ _ => true | _ => false end.

Definition isFlagStore (e : Event) : bool :=
  match e with EvStore FServerReady | EvStore FMuxStarted => true | _ => false end.

Definition isGoMuxServe (e : Event) : bool :=
  match e with EvGo MuxServe => true | _ => false end.

Definition isDial (e : Event) : bool :=
  match e with EvDial _ _ => true | _ => false end.

(** A step respects the lock discipline when, if it assigns one of the
    two flags, the write lock is held in the state it leaves. (An
    assignment does not touch the mutex, so it is also held before.) *)
Definition guarded (st : Step) : bool :=
  if isFlagStore (fst st)
  then match mu (um (snd st)) with WriteLocked => true | _ => false end
  else true.

(** Both probes pass at time [t]. *)
Definition passes (w : World) (p : string) (t : nat) : bool :=
  httpAnswers w t ("http://localhost:" +:+ p +:+ "/health")
  && grpcAnswers w t ("localhost:" +:+ p).

(** The trace of one failed attempt made at time [t]. *)
Definition failedAttempt (w : World) (p : string) (t : nat) : list Event :=
  let url := "http://localhost:" +:+ p +:+ "/health" in
  if httpAnswers w t url
  then [EvProbeHTTP url true; EvProbeGRPC ("localhost:" +:+ p) false; EvSleep 1]
  else [EvProbeHTTP url false; EvSleep 1].

Definition passedAttempt (p : string) : list Event :=
  [EvProbeHTTP ("http://localhost:" +:+ p +:+ "/health") true;
   EvProbeGRPC ("localhost:" +:+ p) true].

(** The same two, as steps of a machine [m] (only the sleep changes the
    machine: it advances the clock). *)
Definition failedSteps (w : World) (m : Machine) : list Step :=
  let url := "http://localhost:" +:+ port (um m) +:+ "/health" in
  let m' := {| um := um m; now := S (now m) |} in
  if httpAnswers w (now m) url
  then [(EvProbeHTTP url true, m); (EvProbeGRPC ("localhost:" +:+ port (um m)) false, m);
        (EvSleep 1, m')]
  else [(EvProbeHTTP url false, m); (EvSleep 1, m')].

Definition passedSteps (m : Machine) : list Step :=
  [(EvProbeHTTP ("http://localhost:" +:+ port (um m) +:+ "/health") true, m);
   (EvProbeGRPC ("localhost:" +:+ port (um m)) true, m)].

Definition isWiring (e : Event) : bool :=
  match e with EvRegister _ _ | EvGo (HTTPServe _) | EvGo (GRPCServe _) => true | _ => false end.

(** The close calls [Stop] makes on a record, in program order. *)
Definition closeCalls (s : UltraMultiplexer) : list Event :=
  let call (c : Component) (field : option Handle) :=
    match field with Some _ => [EvClose c] | None => [] end in
  call TheGrpcConn (grpcConn s) ++ call TheHttpServer (httpServer s) ++
  call TheGrpcServer (grpcServer s) ++ call TheListener (listener s).

(** The matcher [Initialize] registers for gRPC. *)
Definition grpcMatcher : cmux.Matcher :=
  cmux.HTTP2MatchHeaderFieldSendSettings "content-type" "application/grpc".

(** The resources of [s'] are those of [s], in the same condition. *)
Definition sameResources (s s' : UltraMultiplexer) : Prop :=
  listener s' = listener s /\ mux s' = mux s /\ httpServer s' = httpServer s /\
  grpcServer s' = grpcServer s /\ grpcConn s' = grpcConn s.

(** The steps by which [initGRPCClient] builds the client on a machine
    [m] once the dial has succeeded. *)
Definition clientConstruction (m : Machine) : list Step :=
  let target := "localhost:" +:+ port (um m) in
  let s1 := set_grpcConn (Some Open) (um m) in
  let s2 := set_grpcClient (Some NewUltraServiceClient) s1 in
  let s3 := set_serverReady true s2 in
  [(EvDial target None, m);
   (EvStore FGrpcConn, {| um := s1; now := now m |});
   (EvStore FGrpcClient, {| um := s2; now := now m |});
   (EvStore FServerReady, {| um := s3; now := now m |})].

(** The invariant handlers rely on: once the flag is up, the client stub
    is there. *)
Definition clientInv (s : UltraMultiplexer) : Prop :=
  serverReady s = true -> grpcClient s <> None.

(** The first attempt (counted from [0]) within the budget [n] at which
    both probes pass, when attempt [k] is made at time [t0 + k]. *)
Fixpoint firstPass (w : World) (p : string) (t0 n : nat) : option nat :=
  match n with
  | 0 => None
  | S n' =>
      if passes w p t0 then Some 0
      else option_map S (firstPass w p (S t0) n')
  end.

(** [c] keeps [P] true of the record: in every state it goes through and
    in the one it ends in. *)
Definition preserves {A} (P : UltraMultiplexer -> Prop) (c : M A) : Prop :=
  forall m, P (um m) ->
    P (um (snd (fst (c m)))) /\ Forall (fun st : Step => P (um (snd st))) (snd (c m)).

(** A property of the record that no field assignment of the program can
    break is kept by every operation. *)
Definition stable (P : UltraMultiplexer -> Prop) : Prop :=
  (forall v s, P s -> P (set_listener v s)) /\
  (forall v s, P s -> P (set_mux v s)) /\
  (forall v s, P s -> P (set_httpServer v s)) /\
  (forall v s, P s -> P (set_grpcServer v s)) /\
  (forall v s, P s -> P (set_grpcConn v s)) /\
  (forall s, P s -> P (set_grpcClient (Some NewUltraServiceClient) s)) /\
  (forall v s, P s -> P (set_mu v s)) /\
  (forall s, P s -> P (set_serverReady true s)) /\
  (forall s, P s -> P (set_muxStarted true s)).

(** The operations of the program, to quantify over them. *)
Inductive Op : Type :=
| OpInitialize
| OpStartMux
| OpWaitForServerReady
| OpCheckHTTPReady
| OpCheckGRPCReady
| OpInitGRPCClient
| OpIsGRPCClientReady
| OpStart
| OpStop
| OpServeHTTP (rw : ResponseWriter) (r : Request).

Definition discard {A} (c : M A) : M unit := _ <- c ;; ret tt.

Definition exec (w : World) (op : Op) : M unit :=
  match op with
  | OpInitialize => discard (Initialize w)
  | OpStartMux => startMux
  | OpWaitForServerReady => discard (waitForServerReady w)
  | OpCheckHTTPReady => discard (checkHTTPReady w)
  | OpCheckGRPCReady => discard (checkGRPCReady w)
  | OpInitGRPCClient => discard (initGRPCClient w)
  | OpIsGRPCClientReady => discard isGRPCClientReady
  | OpStart => discard (Start w)
  | OpStop => discard Stop
  | OpServeHTTP rw r => discard (ServeHTTP w rw r)
  end.

(** ** Concrete worlds and machines *)

(** Everything answers: HTTP from second 2 on, gRPC from second 3 on. *)
Definition worldUp : World := {|
  listenErr := fun _ => None;
  httpAnswers := fun t _ => (2 <=? t)%nat;
  grpcAnswers := fun t _ => (3 <=? t)%nat;
  dialErr := fun _ _ => None;
  callErr := fun _ _ => None;
  fetch := fun _ _ => inr "connection refused";
  rfc3339 := fun _ => "2024-01-01T00:00:00Z"
|}.

(** The port is bound but nothing ever answers a probe. *)
Definition worldDown : World := {|
  listenErr := fun _ => None;
  httpAnswers := fun _ _ => false;
  grpcAnswers := fun _ _ => false;
  dialErr := fun _ _ => None;
  callErr := fun _ _ => None;
  fetch := fun _ _ => inr "connection refused";
  rfc3339 := fun _ => "2024-01-01T00:00:00Z"
|}.

(** The loop-back call fails in transit. *)
Definition worldFlaky : World := {|
  listenErr := fun _ => None;
  httpAnswers := fun _ _ => true;
  grpcAnswers := fun _ _ => true;
  dialErr := fun _ _ => None;
  callErr := fun _ _ => Some "rpc error: code = DeadlineExceeded";
  fetch := fun _ _ => inr "connection refused";
  rfc3339 := fun _ => "2024-01-01T00:00:00Z"
|}.

Definition notFoundPage : Response := {|
  StatusCode := 404;
  RespHeader := <["Content-Type" := ["text/html"]]> ∅;
  RespBody := "not found"
|}.

(** An upstream that answers every fetch with a small page. *)
Definition worldUpstream : World := {|
  listenErr := fun _ => None;
  httpAnswers := fun _ _ => true;
  grpcAnswers := fun _ _ => true;
  dialErr := fun _ _ => None;
  callErr := fun _ _ => None;
  fetch := fun _ _ => inl notFoundPage;
  rfc3339 := fun _ => "2024-01-01T00:00:00Z"
|}.

(** The port is taken. *)
Definition worldBusy : World := {|
  listenErr := fun _ => Some "listen tcp :8080: bind: address already in use";
  httpAnswers := fun _ _ => true;
  grpcAnswers := fun _ _ => true;
  dialErr := fun _ _ => None;
  callErr := fun _ _ => None;
  fetch := fun _ _ => inr "connection refused";
  rfc3339 := fun _ => "2024-01-01T00:00:00Z"
|}.

(** Both probes answer at once, but the client's dial times out. *)
Definition worldNoDial : World := {|
  listenErr := fun _ => None;
  httpAnswers := fun _ _ => true;
  grpcAnswers := fun _ _ => true;
  dialErr := fun _ _ => Some "context deadline exceeded";
  callErr := fun _ _ => None;
  fetch := fun _ _ => inr "connection refused";
  rfc3339 := fun _ => "2024-01-01T00:00:00Z"
|}.

Definition fresh : Machine := {| um := NewUltraMultiplexer "8080"; now := 0 |}.

(** The machine [main] leaves behind. *)
Definition after (w : World) : Machine := snd (fst (main w)).

(** The machine [Initialize] leaves behind. *)
Definition initialized (w : World) : Machine := snd (fst (Initialize w fresh)).

(** The record once [Initialize] has bound port 8080 and wired the mux
    and the servers, and the machine at that point. *)
Definition wired : UltraMultiplexer := {|
  port := "8080";
  listener := Some Open;
  mux := Some {| cmux.sls := [ {| cmux.ss := [grpcMatcher]; cmux.l := 0 |};
                               {| cmux.ss := [cmux.Any]; cmux.l := 1 |} ] |};
  httpServer := Some Open;
  grpcServer := Some Open;
  httpClient := Some {| Timeout := 10 |};
  grpcClient := None;
  grpcConn := None;
  mu := Unlocked;
  serverReady := false;
  muxStarted := false
|}.

Definition boundMachine : Machine := {| um := wired; now := 0 |}.

(** The machine once [Start] has gone through in [worldUp]: the third
    second, client built, both flags up. *)
Definition readyMachine : Machine := {|
  um := set_serverReady true
          (set_grpcClient (Some NewUltraServiceClient)
             (set_grpcConn (Some Open) (set_muxStarted true wired)));
  now := 3
|}.

Definition GET (path : string) (query : gmap string (list string)) : Request :=
  {| Method := "GET"; Path := path; Query := query |}.

(** [/grpc-call?name=<n>] *)
Definition grpcCallRequest (n : string) : Request :=
  GET "/grpc-call" (<["name" := [n]]> ∅).

(** ** The claims that the code does not meet, as they are worded *)

(** "otherwise it returns status 200 with JSON body [{"grpc_response":
    "Hello <name> from Ultra Multiplexer!"}] where [<name>] is the
    request's name query parameter". *)
Definition greetsQueryName (w : World) (m : Machine) (r : Request) : Prop :=
  serverReady (um m) = true ->
  callErr w (now m) {| Name := Get (Query r) "name" |} = None ->
  exists rw,
    fst (fst (ServeHTTP w NewResponse r m)) = Returned rw /\
    status rw = Some StatusOK /\
    body rw =
      [JSON (<["grpc_response" :=
                 "Hello " +:+ Get (Query r) "name" +:+ " from Ultra Multiplexer!"]> ∅)].

(** "the orchestrator then tears down everything started so far (all
    started components - servers, mux, listener - are shut down before
    the error is surfaced)". *)
Definition shutDown (h : option Handle) : Prop := h <> Some Open.

Definition tearsDownOnNotReady (w : World) (m : Machine) : Prop :=
  firstPass w (port (um m)) (now m) maxAttempts = None ->
  exists e m' t,
    Start w m = (Returned (Some e), m', t) /\
    shutDown (httpServer (um m')) /\
    shutDown (grpcServer (um m')) /\
    shutDown (listener (um m')).

(** ** Notions used to describe the handlers and the start-up *)

(** The response header that [proxyRequest] leaves in [rw] after copying
    the upstream header [h] into it: under each upstream key, the
    upstream values follow those already there. *)
Definition forwardedHeader (h : gmap string (list string)) (rw : ResponseWriter)
    (key : string) : option (list string) :=
  match h !! key with
  | Some (value :: values) => Some (default [] (header rw !! key) ++ value :: values)
  | _ => header rw !! key
  end.

(** The events a handler may produce: taking and releasing the read lock,
    and the loop-back call. *)
Definition isHandlerEvent (e : Event) : bool :=
  match e with EvRLock | EvRUnlock | EvCall _ _ => true | _ => false end.

(** A computation that ends on the machine it started from, whatever its
    outcome, and shows nothing but handler events. *)
Definition readOnly {A} (c : M A) : Prop :=
  forall m, snd (fst (c m)) = m /\
            forallb isHandlerEvent (events (snd (c m))) = true.

(** What [Initialize] does, in order, on port [p] when the bind succeeds. *)
Definition initEvents (p : string) : list Event :=
  [EvListen (":" +:+ p) None; EvStore FListener; EvStore FMux;
   EvRegister [grpcMatcher] 0; EvRegister [cmux.Any] 1;
   EvStore FHttpServer; EvStore FGrpcServer;
   EvGo (HTTPServe 1); EvGo (GRPCServe 0)].

(** What the first [startMux] does. *)
Definition startMuxEvents : list Event :=
  [EvLock; EvStore FMuxStarted; EvUnlock; EvGo MuxServe].

(** A property kept by every field assignment except, possibly, the one
    that raises [serverReady]. *)
Definition stableButReady (P : UltraMultiplexer -> Prop) : Prop :=
  (forall v s, P s -> P (set_listener v s)) /\
  (forall v s, P s -> P (set_mux v s)) /\
  (forall v s, P s -> P (set_httpServer v s)) /\
  (forall v s, P s -> P (set_grpcServer v s)) /\
  (forall v s, P s -> P (set_grpcConn v s)) /\
  (forall s, P s -> P (set_grpcClient (Some NewUltraServiceClient) s)) /\
  (forall v s, P s -> P (set_mu v s)) /\
  (forall s, P s -> P (set_muxStarted true s)).

(** What the handlers need of the record in order not to dereference a
    nil pointer: the client stub once the flag is up, and the HTTP
    client. *)
Definition handlersSafe (s : UltraMultiplexer) : Prop :=
  clientInv s /\ httpClient s <> None.

(** Run a sequence of operations; stop at the first that does not
    return. *)
Fixpoint execs (w : World) (ops : list Op) : M unit :=
  match ops with
  | [] => ret tt
  | op :: ops' => exec w op ;; execs w ops'
  end.

(** * Theorems *)

(** ** The concrete machines are what the program produces *)

Lemma initialized_worldUp : initialized worldUp = boundMachine.
Proof. vm_compute. reflexivity. Qed.

Lemma initialized_worldDown : initialized worldDown = boundMachine.
Proof. vm_compute. reflexivity. Qed.

Lemma after_worldUp : after worldUp = readyMachine.
Proof. vm_compute. reflexivity. Qed.

(** ** [strings.ToUpper] *)

Lemma upperByte_spec (c : ascii) :
  strings.upperByte c =
  let n := nat_of_ascii c in
  if ((97 <=? n) && (n <=? 122))%nat then ascii_of_nat (n - 32) else c.
Proof. reflexivity. Qed.

Lemma isLower_spec (c : ascii) :
  strings.isLower c =
  ((97 <=? nat_of_ascii c) && (nat_of_ascii c <=? 122))%nat.
Proof. reflexivity. Qed.

Lemma mapBytes_upperByte (s : string) :
  strings.mapBytes strings.upperByte s = strings.uppercase s.
Proof.
  induction s as [|c s IH]; cbn [strings.mapBytes strings.uppercase].
  - reflexivity.
  - rewrite IH, upperByte_spec. reflexivity.
Qed.

(** [hasLower] only ever goes up during the scan. *)
Lemma scan_acc (s : string) (acc b : bool) :
  strings.scan s acc = (b, false) -> acc = false.
Proof.
  revert acc. induction s as [|c s IH]; intros acc H; cbn [strings.scan] in H.
  - congruence.
  - destruct (strings.RuneSelf <=? nat_of_ascii c)%nat.
    + congruence.
    + apply IH in H. apply orb_false_elim in H. tauto.
Qed.

Lemma scan_ascii (s : string) (acc : bool) :
  strings.allASCII s = true ->
  exists hasLower, strings.scan s acc = (true, hasLower) /\
    (hasLower = false -> strings.uppercase s = s).
Proof.
  revert acc. induction s as [|c s IH]; intros acc Hs;
    cbn [strings.scan strings.allASCII strings.uppercase] in *.
  - exists acc. split; reflexivity.
  - apply andb_true_iff in Hs as [Hc Hs].
    apply Nat.ltb_lt in Hc.
    unfold strings.RuneSelf.
    destruct (Nat.leb_spec 128 (nat_of_ascii c)) as [Hge|_]; [lia|].
    destruct (IH (acc || strings.isLower c) Hs) as (hl & Hscan & Hup).
    exists hl. split; [exact Hscan|].
    intros ->.
    apply scan_acc, orb_false_elim in Hscan as [_ Hlow].
    rewrite isLower_spec in Hlow.
    cbv zeta. rewrite Hlow, Hup; reflexivity.
Qed.

Lemma ToUpper_ascii (f : string -> string) (s : string) :
  strings.allASCII s = true -> strings.ToUpper f s = strings.uppercase s.
Proof.
  intros Hs. unfold strings.ToUpper.
  destruct (scan_ascii s false Hs) as (hl & -> & Hup).
  destruct hl; simpl.
  - apply mapBytes_upperByte.
  - symmetry; apply Hup; reflexivity.
Qed.

Example ToUpper_hello (f : string -> string) :
  strings.ToUpper f "hello, World 42" = "HELLO, WORLD 42".
Proof. reflexivity. Qed.

Example ToUpper_no_lower (f : string -> string) :
  strings.ToUpper f "ABC-123" = "ABC-123".
Proof. reflexivity. Qed.


(** ** Properties kept by every step *)

Section Preserves.
Variable P : UltraMultiplexer -> Prop.

Lemma preserves_ret {A} (a : A) : preserves P (ret a).
Proof. intros m Hm; split; [exact Hm | constructor]. Qed.

Lemma preserves_get : preserves P get.
Proof. intros m Hm; split; [exact Hm | constructor]. Qed.

Lemma preserves_clock : preserves P clock.
Proof. intros m Hm; split; [exact Hm | constructor]. Qed.

Lemma preserves_block {A} : preserves P (@block A).
Proof. intros m Hm; split; [exact Hm | constructor]. Qed.

Lemma preserves_crash {A} (msg : string) : preserves P (@crash A msg).
Proof. intros m Hm; split; [exact Hm | constructor]. Qed.

Lemma preserves_Sleep (n : nat) : preserves P (Sleep n).
Proof. intros m Hm; split; [exact Hm | repeat constructor; exact Hm]. Qed.

Lemma preserves_act (e : Event) (f : UltraMultiplexer -> UltraMultiplexer) :
  (forall s, P s -> P (f s)) -> preserves P (act e f).
Proof.
  intros Hf m Hm; split; [apply Hf, Hm | repeat constructor; apply Hf, Hm].
Qed.

Lemma preserves_bind {A B} (c : M A) (k : A -> M B) :
  preserves P c -> (forall a, preserves P (k a)) -> preserves P (bind c k).
Proof.
  intros Hc Hk m Hm. unfold bind.
  destruct (Hc m Hm) as [H1 H2].
  destruct (c m) as [[o m1] t1]; cbn [fst snd] in *.
  destruct o as [a| |msg]; cbn [fst snd]; try (split; assumption).
  destruct (Hk a m1 H1) as [H3 H4].
  destruct (k a m1) as [[o2 m2] t2]; cbn [fst snd] in *.
  split; [exact H3 | apply List.Forall_app; split; assumption].
Qed.
End Preserves.

(** Decompose a computation along its binds and case distinctions; the
    match is on the syntax, so that named operations stay folded and are
    left to the lemmas already proved about them. *)
Ltac preserve_step :=
  lazymatch goal with
  | |- preserves _ (ret _) => apply preserves_ret
  | |- preserves _ get => apply preserves_get
  | |- preserves _ clock => apply preserves_clock
  | |- preserves _ (@block _) => apply preserves_block
  | |- preserves _ (@crash _ _) => apply preserves_crash
  | |- preserves _ (@Fatalf _ _) => apply preserves_crash
  | |- preserves _ (Sleep _) => apply preserves_Sleep
  | |- preserves _ (bind _ _) => apply preserves_bind; [ | intro ]
  | |- preserves _ (discard _) => unfold discard
  | |- preserves _ (emit _) => unfold emit
  | |- preserves _ (go _) => unfold go
  | |- preserves _ (store _ _) => unfold store
  | |- preserves _ (act _ _) => apply preserves_act; auto
  | |- preserves _ (match ?x with _ => _ end) => destruct x
  end.

Ltac preserve := repeat first [ assumption | preserve_step ].

Ltac use_stable H :=
  let H1 := fresh in
  destruct H as (?H1 & ?H1 & ?H1 & ?H1 & ?H1 & ?H1 & ?H1 & ?H1 & ?H1).

Section Stable.
Variable P : UltraMultiplexer -> Prop.
Hypothesis HP : stable P.

Lemma stable_Lock : preserves P Lock.
Proof. use_stable HP. unfold Lock. preserve. Qed.

Lemma stable_Unlock : preserves P Unlock.
Proof. use_stable HP. unfold Unlock. preserve. Qed.

Lemma stable_RLock : preserves P RLock.
Proof. use_stable HP. unfold RLock. preserve. Qed.

Lemma stable_RUnlock : preserves P RUnlock.
Proof. use_stable HP. unfold RUnlock. preserve. Qed.

Lemma stable_startMux : preserves P startMux.
Proof.
  pose proof stable_Lock. pose proof stable_Unlock. use_stable HP.
  unfold startMux. preserve.
Qed.

Lemma stable_checkHTTPReady (w : World) : preserves P (checkHTTPReady w).
Proof. unfold checkHTTPReady. preserve. Qed.

Lemma stable_checkGRPCReady (w : World) : preserves P (checkGRPCReady w).
Proof. unfold checkGRPCReady. preserve. Qed.

Lemma stable_waitLoop (w : World) (n : nat) : preserves P (waitLoop w n).
Proof.
  pose proof (stable_checkHTTPReady w). pose proof (stable_checkGRPCReady w).
  induction n as [|n IH]; cbn [waitLoop]; preserve.
Qed.

Lemma stable_waitForServerReady (w : World) : preserves P (waitForServerReady w).
Proof. apply stable_waitLoop. Qed.

Lemma stable_initGRPCClient (w : World) : preserves P (initGRPCClient w).
Proof. use_stable HP. unfold initGRPCClient. preserve. Qed.

Lemma stable_Start (w : World) : preserves P (Start w).
Proof.
  pose proof stable_startMux. pose proof (stable_waitForServerReady w).
  pose proof (stable_initGRPCClient w).
  unfold Start. preserve.
Qed.

Lemma stable_muxMatch (matchers : list cmux.Matcher) : preserves P (muxMatch matchers).
Proof. use_stable HP. unfold muxMatch. preserve. Qed.

Lemma stable_Initialize (w : World) : preserves P (Initialize w).
Proof.
  pose proof (stable_muxMatch [grpcMatcher]). pose proof (stable_muxMatch [cmux.Any]).
  use_stable HP. unfold Initialize. fold grpcMatcher. preserve.
Qed.

Lemma stable_closeIfSet (c : Component) (field : UltraMultiplexer -> option Handle)
    (set : option Handle -> UltraMultiplexer -> UltraMultiplexer) :
  (forall v s, P s -> P (set v s)) -> preserves P (closeIfSet c field set).
Proof. intros Hset. unfold closeIfSet. preserve. Qed.

Lemma stable_Stop : preserves P Stop.
Proof.
  pose proof stable_Lock. pose proof stable_Unlock. use_stable HP.
  unfold Stop. preserve; apply stable_closeIfSet; assumption.
Qed.

Lemma stable_isGRPCClientReady : preserves P isGRPCClientReady.
Proof.
  pose proof stable_RLock. pose proof stable_RUnlock.
  unfold isGRPCClientReady. preserve.
Qed.

Lemma stable_clientSayHello (w : World) (req : HelloRequest) :
  preserves P (clientSayHello w req).
Proof. unfold clientSayHello. preserve. Qed.

Lemma stable_callGRPC (w : World) (rw : ResponseWriter) (r : Request) :
  preserves P (callGRPC w rw r).
Proof.
  pose proof stable_isGRPCClientReady.
  unfold callGRPC. preserve; try apply stable_clientSayHello; preserve.
Qed.

Lemma stable_ServeHTTP (w : World) (rw : ResponseWriter) (r : Request) :
  preserves P (ServeHTTP w rw r).
Proof.
  pose proof (stable_callGRPC w rw r).
  unfold ServeHTTP, healthCheck, proxyRequest, defaultHandler. preserve.
Qed.

Lemma stable_exec (w : World) (op : Op) : preserves P (exec w op).
Proof.
  pose proof (stable_Initialize w). pose proof stable_startMux.
  pose proof (stable_waitForServerReady w). pose proof (stable_initGRPCClient w).
  pose proof (stable_checkHTTPReady w). pose proof (stable_checkGRPCReady w).
  pose proof stable_isGRPCClientReady. pose proof (stable_Start w).
  pose proof stable_Stop.
  destruct op; unfold exec; preserve. apply stable_ServeHTTP.
Qed.
End Stable.

(** ** [Initialize]: the order of the matchers *)

Lemma Initialize_run (w : World) (m : Machine) :
  listenErr w (":" +:+ port (um m)) = None ->
  exists m' t,
    Initialize w m = (Returned None, m', t) /\
    mux (um m') =
      Some {| cmux.sls := [ {| cmux.ss := [grpcMatcher]; cmux.l := 0 |};
                            {| cmux.ss := [cmux.Any]; cmux.l := 1 |} ] |} /\
    List.filter isWiring (events t) =
      [EvRegister [grpcMatcher] 0; EvRegister [cmux.Any] 1;
       EvGo (HTTPServe 1); EvGo (GRPCServe 0)] /\
    listener (um m') = Some Open /\
    httpServer (um m') = Some Open /\
    grpcServer (um m') = Some Open /\
    (mu (um m') = mu (um m) /\ port (um m') = port (um m) /\ now m' = now m /\
     serverReady (um m') = serverReady (um m)) /\
    List.filter isClose (events t) = [].
Proof.
  intros Hl. destruct m as [s n]. cbn [um] in Hl.
  unfold Initialize, bind, get. cbn [um]. rewrite Hl.
  do 2 eexists. split; [reflexivity|].
  repeat split.
Qed.

(** C2. When the port can be bound, [Initialize] registers the gRPC
    matcher (HTTP/2 with [content-type: application/grpc]) first and the
    catch-all last, starts the gRPC server on the first listener and the
    HTTP server on the second; hence, whatever the connection, the mux
    delivers it to the gRPC server's listener when the gRPC matcher
    accepts it and to the HTTP server's listener otherwise. *)
Theorem Initialize_matcher_order (w : World) (m : Machine) :
  listenErr w (":" +:+ port (um m)) = None ->
  exists m' t groups grpcListener httpListener,
    Initialize w m = (Returned None, m', t) /\
    mux (um m') = Some {| cmux.sls := groups |} /\
    groups = [ {| cmux.ss := [grpcMatcher]; cmux.l := grpcListener |};
               {| cmux.ss := [cmux.Any]; cmux.l := httpListener |} ] /\
    List.filter isWiring (events t) =
      [EvRegister [grpcMatcher] grpcListener; EvRegister [cmux.Any] httpListener;
       EvGo (HTTPServe httpListener); EvGo (GRPCServe grpcListener)] /\
    grpcListener <> httpListener /\
    forall (Conn : Type) (http2HeaderField : string -> string -> Conn -> bool) (c : Conn),
      cmux.serve Conn http2HeaderField groups c =
      Some (if cmux.matches Conn http2HeaderField grpcMatcher c
            then grpcListener else httpListener).
Proof.
  intros Hl.
  destruct (Initialize_run w m Hl) as (m' & t & Hrun & Hmux & Hev & _).
  exists m', t, [ {| cmux.ss := [grpcMatcher]; cmux.l := 0 |};
                  {| cmux.ss := [cmux.Any]; cmux.l := 1 |} ], 0, 1.
  repeat split; try assumption; try discriminate.
  intros Conn field c. cbn.
  destruct (field "content-type" "application/grpc" c); reflexivity.
Qed.

Lemma Initialize_matcher_order_witness :
  exists m' t groups grpcListener httpListener,
    Initialize worldUp fresh = (Returned None, m', t) /\
    mux (um m') = Some {| cmux.sls := groups |} /\
    groups = [ {| cmux.ss := [grpcMatcher]; cmux.l := grpcListener |};
               {| cmux.ss := [cmux.Any]; cmux.l := httpListener |} ] /\
    List.filter isWiring (events t) =
      [EvRegister [grpcMatcher] grpcListener; EvRegister [cmux.Any] httpListener;
       EvGo (HTTPServe httpListener); EvGo (GRPCServe grpcListener)] /\
    grpcListener <> httpListener /\
    forall (Conn : Type) (http2HeaderField : string -> string -> Conn -> bool) (c : Conn),
      cmux.serve Conn http2HeaderField groups c =
      Some (if cmux.matches Conn http2HeaderField grpcMatcher c
            then grpcListener else httpListener).
Proof. apply (Initialize_matcher_order worldUp fresh). reflexivity. Defined.

(** Registering the catch-all first would send every connection to it:
    the order is what makes the routing right. *)
Lemma catch_all_first_swallows (Conn : Type)
    (http2HeaderField : string -> string -> Conn -> bool) (c : Conn) :
  cmux.serve Conn http2HeaderField
    [ {| cmux.ss := [cmux.Any]; cmux.l := 0 |};
      {| cmux.ss := [grpcMatcher]; cmux.l := 1 |} ] c = Some 0.
Proof. reflexivity. Qed.

(** ** [startMux] *)

Lemma set_mu_round (s : UltraMultiplexer) (v : RWMutex) :
  set_mu (mu s) (set_mu v s) = s.
Proof. destruct s; reflexivity. Qed.

Lemma startMux_first (m : Machine) :
  mu (um m) = Unlocked -> muxStarted (um m) = false ->
  let locked := set_mu WriteLocked (um m) in
  let marked := set_muxStarted true locked in
  let done := {| um := set_mu Unlocked marked; now := now m |} in
  startMux m =
    (Returned tt, done,
     [(EvLock, {| um := locked; now := now m |});
      (EvStore FMuxStarted, {| um := marked; now := now m |});
      (EvUnlock, done);
      (EvGo MuxServe, done)]).
Proof.
  destruct m as [s n]; destruct s; cbn [um mu muxStarted].
  intros -> ->. reflexivity.
Qed.

Lemma startMux_again (m : Machine) :
  mu (um m) = Unlocked -> muxStarted (um m) = true ->
  startMux m =
    (Returned tt, m,
     [(EvLock, {| um := set_mu WriteLocked (um m); now := now m |}); (EvUnlock, m)]).
Proof.
  destruct m as [s n]; destruct s; cbn [um mu muxStarted].
  intros -> ->. reflexivity.
Qed.

Lemma muxStarted_stable : stable (fun s => muxStarted s = true).
Proof. repeat split; intros; destruct s; assumption || reflexivity. Qed.

(** C10. From a record whose flag is down, [startMux] raises
    [muxStarted] and launches the accept loop exactly once; any call
    made while the flag is up returns with the record as it was and
    launches nothing; and no operation of the program ever takes the
    flag down again, neither in its final state nor on the way. *)
Theorem startMux_idempotent (m : Machine) :
  mu (um m) = Unlocked -> muxStarted (um m) = false ->
  exists m1 t1,
    startMux m = (Returned tt, m1, t1) /\
    muxStarted (um m1) = true /\
    mu (um m1) = Unlocked /\
    List.filter isGoMuxServe (events t1) = [EvGo MuxServe] /\
    (forall m2, mu (um m2) = Unlocked -> muxStarted (um m2) = true ->
       exists t2, startMux m2 = (Returned tt, m2, t2) /\
                  List.filter isGoMuxServe (events t2) = []) /\
    (forall (w : World) (op : Op) (m2 : Machine),
       muxStarted (um m2) = true ->
       muxStarted (um (snd (fst (exec w op m2)))) = true /\
       Forall (fun st : Step => muxStarted (um (snd st)) = true) (snd (exec w op m2))).
Proof.
  intros Hmu Hflag. do 2 eexists.
  split; [apply startMux_first; assumption|].
  split; [destruct m as [[] ?]; reflexivity|].
  split; [destruct m as [[] ?]; reflexivity|].
  split; [reflexivity|].
  split.
  - intros m2 Hmu2 Hflag2. eexists. split; [apply startMux_again; assumption|].
    reflexivity.
  - intros w op m2. apply (stable_exec _ muxStarted_stable w op m2).
Qed.

Lemma startMux_idempotent_witness :
  exists m1 t1,
    startMux fresh = (Returned tt, m1, t1) /\
    muxStarted (um m1) = true /\
    mu (um m1) = Unlocked /\
    List.filter isGoMuxServe (events t1) = [EvGo MuxServe] /\
    (forall m2, mu (um m2) = Unlocked -> muxStarted (um m2) = true ->
       exists t2, startMux m2 = (Returned tt, m2, t2) /\
                  List.filter isGoMuxServe (events t2) = []) /\
    (forall (w : World) (op : Op) (m2 : Machine),
       muxStarted (um m2) = true ->
       muxStarted (um (snd (fst (exec w op m2)))) = true /\
       Forall (fun st : Step => muxStarted (um (snd st)) = true) (snd (exec w op m2))).
Proof. apply (startMux_idempotent fresh); reflexivity. Defined.

(** ** [Stop] *)

Lemma Stop_run (m : Machine) :
  mu (um m) = Unlocked ->
  let closed (h : option Handle) := option_map closeHandle h in
  let s := um m in
  let s' := set_listener (closed (listener s))
              (set_grpcServer (closed (grpcServer s))
                 (set_httpServer (closed (httpServer s))
                    (set_grpcConn (closed (grpcConn s)) s))) in
  exists t,
    Stop m = (Returned None, {| um := s'; now := now m |}, t) /\
    List.filter isClose (events t) = closeCalls s /\
    List.filter (fun e => negb (isClose e)) (events t) = [EvLock; EvUnlock].
Proof.
  destruct m as [s n]; destruct s; cbn [um mu]. intros ->.
  destruct listener0, httpServer0, grpcServer0, grpcConn0;
    eexists; (split; [reflexivity|split; reflexivity]).
Qed.



Example Stop_after_startup :
  map fst (snd (Stop readyMachine)) =
    [EvLock; EvClose TheGrpcConn; EvClose TheHttpServer;
     EvClose TheGrpcServer; EvClose TheListener; EvUnlock].
Proof. vm_compute. reflexivity. Qed.

(** ** [waitForServerReady] *)

Lemma firstPass_Some (w : World) (p : string) (n t0 k : nat) :
  firstPass w p t0 n = Some k ->
  k < n /\ passes w p (t0 + k) = true /\
  forall j, j < k -> passes w p (t0 + j) = false.
Proof.
  revert t0 k. induction n as [|n IH]; intros t0 k H; cbn [firstPass] in H.
  - discriminate.
  - destruct (passes w p t0) eqn:Hp.
    + inversion H; subst k. rewrite Nat.add_0_r. repeat split; [lia|exact Hp|lia].
    + destruct (firstPass w p (S t0) n) as [k'|] eqn:Hf; [|discriminate].
      inversion H; subst k. destruct (IH _ _ Hf) as (Hlt & Hk & Hbefore).
      repeat split; [lia| |].
      * replace (t0 + S k') with (S t0 + k') by lia. exact Hk.
      * intros [|j] Hj; [rewrite Nat.add_0_r; exact Hp|].
        replace (t0 + S j) with (S t0 + j) by lia. apply Hbefore; lia.
Qed.

Lemma firstPass_None (w : World) (p : string) (n t0 : nat) :
  firstPass w p t0 n = None ->
  forall j, j < n -> passes w p (t0 + j) = false.
Proof.
  revert t0. induction n as [|n IH]; intros t0 H j Hj; [lia|].
  cbn [firstPass] in H.
  destruct (passes w p t0) eqn:Hp; [discriminate|].
  destruct (firstPass w p (S t0) n) eqn:Hf; [discriminate|].
  destruct j as [|j]; [rewrite Nat.add_0_r; exact Hp|].
  replace (t0 + S j) with (S t0 + j) by lia. apply (IH _ Hf); lia.
Qed.

Lemma firstPass_all_fail (w : World) (p : string) (n t0 : nat) :
  (forall j, j < n -> passes w p (t0 + j) = false) ->
  firstPass w p t0 n = None.
Proof.
  intros H. destruct (firstPass w p t0 n) as [k|] eqn:Hf; [|reflexivity].
  apply firstPass_Some in Hf as (Hlt & Hk & _).
  rewrite (H k Hlt) in Hk. discriminate.
Qed.

Lemma bind_run {A B} (c : M A) (k : A -> M B) (m : Machine) :
  bind c k m =
    match c m with
    | (Returned a, m1, t1) =>
        (fst (fst (k a m1)), snd (fst (k a m1)), t1 ++ snd (k a m1))
    | (Blocked, m1, t1) => (Blocked, m1, t1)
    | (Crashed msg, m1, t1) => (Crashed msg, m1, t1)
    end.
Proof.
  unfold bind. destruct (c m) as [[[a| |msg] m1] t1]; try reflexivity.
  destruct (k a m1) as [[o m2] t2]; reflexivity.
Qed.

Lemma checkHTTPReady_run (w : World) (m : Machine) :
  let url := "http://localhost:" +:+ port (um m) +:+ "/health" in
  checkHTTPReady w m =
    (Returned (httpAnswers w (now m) url), m,
     [(EvProbeHTTP url (httpAnswers w (now m) url), m)]).
Proof. destruct m; reflexivity. Qed.

Lemma checkGRPCReady_run (w : World) (m : Machine) :
  let target := "localhost:" +:+ port (um m) in
  checkGRPCReady w m =
    (Returned (grpcAnswers w (now m) target), m,
     [(EvProbeGRPC target (grpcAnswers w (now m) target), m)]).
Proof. destruct m; reflexivity. Qed.

Lemma Sleep_1_run (m : Machine) :
  Sleep 1 m = (Returned tt, {| um := um m; now := S (now m) |},
               [(EvSleep 1, {| um := um m; now := S (now m) |})]).
Proof. unfold Sleep. rewrite Nat.add_1_r. reflexivity. Qed.

(** One turn of the loop. *)
Lemma waitLoop_S (w : World) (n : nat) (m : Machine) :
  let again := waitLoop w n {| um := um m; now := S (now m) |} in
  waitLoop w (S n) m =
    if passes w (port (um m)) (now m) then (Returned None, m, passedSteps m)
    else (fst (fst again), snd (fst again), failedSteps w m ++ snd again).
Proof.
  cbv zeta. cbn [waitLoop]. unfold passes, failedSteps, passedSteps.
  rewrite bind_run, checkHTTPReady_run. cbv zeta.
  destruct (httpAnswers w (now m) _); cbn [negb fst snd andb].
  - rewrite bind_run, checkGRPCReady_run. cbv zeta.
    destruct (grpcAnswers w (now m) _); cbn [negb fst snd].
    + reflexivity.
    + rewrite bind_run, Sleep_1_run. reflexivity.
  - rewrite bind_run, Sleep_1_run. reflexivity.
Qed.

Lemma events_app (t1 t2 : list Step) : events (t1 ++ t2) = events t1 ++ events t2.
Proof. apply map_app. Qed.

Lemma failedSteps_events (w : World) (m : Machine) :
  events (failedSteps w m) = failedAttempt w (port (um m)) (now m).
Proof.
  unfold failedSteps, failedAttempt. destruct (httpAnswers w (now m) _); reflexivity.
Qed.

Lemma failedSteps_states (w : World) (m : Machine) :
  Forall (fun st : Step => um (snd st) = um m) (failedSteps w m).
Proof.
  unfold failedSteps. destruct (httpAnswers w (now m) _); repeat constructor.
Qed.

Lemma waitLoop_run (w : World) (n : nat) (m : Machine) :
  let p := port (um m) in
  exists t,
    Forall (fun st : Step => um (snd st) = um m) t /\
    match firstPass w p (now m) n with
    | Some k =>
        waitLoop w n m = (Returned None, {| um := um m; now := now m + k |}, t) /\
        events t = flat_map (failedAttempt w p) (seq (now m) k) ++ passedAttempt p
    | None =>
        waitLoop w n m =
          (Returned (Some "servers not ready after 20 attempts"),
           {| um := um m; now := now m + n |}, t) /\
        events t = flat_map (failedAttempt w p) (seq (now m) n)
    end.
Proof.
  revert m. induction n as [|n IH]; intros m p.
  - exists []. split; [constructor|]. cbn [firstPass waitLoop seq flat_map].
    rewrite Nat.add_0_r. destruct m; split; reflexivity.
  - rewrite waitLoop_S. cbv zeta. cbn [firstPass]. fold p.
    destruct (passes w p (now m)).
    + exists (passedSteps m). split; [repeat constructor|].
      rewrite Nat.add_0_r. destruct m; split; reflexivity.
    + destruct (IH {| um := um m; now := S (now m) |}) as (t' & Hst & Hrec).
      cbn [um now] in Hst, Hrec. fold p in Hrec.
      exists (failedSteps w m ++ t').
      split; [apply List.Forall_app; split; [apply failedSteps_states | exact Hst]|].
      rewrite events_app, failedSteps_events. fold p.
      destruct (firstPass w p (S (now m)) n) as [k|]; cbn [option_map];
        destruct Hrec as [Hrun Hev]; rewrite Hrun; cbn [fst snd seq flat_map];
        rewrite Hev, Nat.add_succ_r; split; try reflexivity.
      apply app_assoc.
Qed.

Lemma http_probes_failed (w : World) (p : string) (ts : list nat) :
  length (List.filter isHTTPProbe (flat_map (failedAttempt w p) ts)) = length ts.
Proof.
  induction ts as [|t ts IH]; [reflexivity|].
  cbn [flat_map]. rewrite List.filter_app, length_app, IH.
  unfold failedAttempt. destruct (httpAnswers w t _); reflexivity.
Qed.

(** C6. [waitForServerReady] makes at most 20 attempts, attempt [j] at
    second [t0 + j]: a failed attempt is the HTTP probe, then (only if
    that passed) the gRPC probe, then a sleep of one second, and the next
    attempt starts again with the HTTP probe. It returns [nil] at the
    first attempt at which both probes pass, without sleeping; when
    none of the 20 attempts passes it returns the error. The record is
    not touched. *)
Theorem waitForServerReady_retries (w : World) (m : Machine) :
  let p := port (um m) in
  let t0 := now m in
  exists t,
    length (List.filter isHTTPProbe (events t)) <= 20 /\
    Forall (fun st : Step => um (snd st) = um m) t /\
    ((exists k, k < 20 /\
        (forall j, j < k -> passes w p (t0 + j) = false) /\
        passes w p (t0 + k) = true /\
        waitForServerReady w m =
          (Returned None, {| um := um m; now := t0 + k |}, t) /\
        events t = flat_map (failedAttempt w p) (seq t0 k) ++ passedAttempt p)
     \/
     ((forall j, j < 20 -> passes w p (t0 + j) = false) /\
      waitForServerReady w m =
        (Returned (Some "servers not ready after 20 attempts"),
         {| um := um m; now := t0 + 20 |}, t) /\
      events t = flat_map (failedAttempt w p) (seq t0 20))).
Proof.
  intros p t0. unfold waitForServerReady.
  destruct (waitLoop_run w maxAttempts m) as (t & Hst & Hrun).
  fold p t0 in Hrun. exists t.
  destruct (firstPass w p t0 maxAttempts) as [k|] eqn:Hf.
  - destruct Hrun as [Hrun Hev].
    apply firstPass_Some in Hf as (Hlt & Hk & Hbefore).
    unfold maxAttempts in Hlt.
    split; [|split; [exact Hst|left; exists k; auto]].
    rewrite Hev, List.filter_app, length_app, http_probes_failed, length_seq.
    unfold passedAttempt. cbn [List.filter isHTTPProbe length]. lia.
  - destruct Hrun as [Hrun Hev].
    pose proof (firstPass_None _ _ _ _ Hf) as Hall. unfold maxAttempts in Hall.
    split; [|split; [exact Hst|right; auto]].
    rewrite Hev, http_probes_failed, length_seq. unfold maxAttempts. lia.
Qed.

Example waitForServerReady_worldUp :
  events (snd (waitForServerReady worldUp fresh)) =
    [EvProbeHTTP "http://localhost:8080/health" false; EvSleep 1;
     EvProbeHTTP "http://localhost:8080/health" false; EvSleep 1;
     EvProbeHTTP "http://localhost:8080/health" true;
     EvProbeGRPC "localhost:8080" false; EvSleep 1;
     EvProbeHTTP "http://localhost:8080/health" true;
     EvProbeGRPC "localhost:8080" true].
Proof. vm_compute. reflexivity. Qed.

(** ** [Start] *)

Lemma startMux_run (m : Machine) :
  mu (um m) = Unlocked ->
  exists t1,
    startMux m = (Returned tt, {| um := set_muxStarted true (um m); now := now m |}, t1) /\
    Forall (fun st : Step =>
              serverReady (um (snd st)) = serverReady (um m) /\
              grpcClient (um (snd st)) = grpcClient (um m) /\
              sameResources (um m) (um (snd st)) /\
              isClose (fst st) = false /\ isProbe (fst st) = false /\
              isDial (fst st) = false) t1.
Proof.
  intros Hmu. destruct (muxStarted (um m)) eqn:Hflag.
  - rewrite (startMux_again m Hmu Hflag). eexists. split.
    + f_equal. f_equal. destruct m as [[] ?]; cbn in *; subst; reflexivity.
    + repeat constructor; destruct m as [[] ?]; reflexivity.
  - rewrite (startMux_first m Hmu Hflag). eexists. split.
    + f_equal. f_equal. destruct m as [[] ?]; cbn in *; subst; reflexivity.
    + repeat constructor; destruct m as [[] ?]; reflexivity.
Qed.

Lemma initGRPCClient_run (w : World) (m : Machine) :
  let target := "localhost:" +:+ port (um m) in
  initGRPCClient w m =
    match dialErr w (now m) target with
    | Some e =>
        (Returned (Some ("failed to connect gRPC client: " +:+ e)), m,
         [(EvDial target (Some e), m)])
    | None =>
        (Returned None,
         {| um := set_serverReady true
                    (set_grpcClient (Some NewUltraServiceClient)
                       (set_grpcConn (Some Open) (um m)));
            now := now m |},
         clientConstruction m)
    end.
Proof.
  destruct m as [s n]. unfold initGRPCClient, bind, get, clock. cbn [um now].
  destruct (dialErr w n _); reflexivity.
Qed.

(** The whole of [Start], case by case. *)
Lemma Start_run (w : World) (m : Machine) :
  mu (um m) = Unlocked ->
  let p := port (um m) in
  let target := "localhost:" +:+ p in
  let s1 := set_muxStarted true (um m) in
  exists t1 tw,
    startMux m = (Returned tt, {| um := s1; now := now m |}, t1) /\
    Forall (fun st : Step =>
              serverReady (um (snd st)) = serverReady (um m) /\
              grpcClient (um (snd st)) = grpcClient (um m) /\
              sameResources (um m) (um (snd st)) /\
              isClose (fst st) = false /\ isProbe (fst st) = false /\
              isDial (fst st) = false) t1 /\
    Forall (fun st : Step => um (snd st) = s1) tw /\
    match firstPass w p (now m) maxAttempts with
    | None =>
        events tw = flat_map (failedAttempt w p) (seq (now m) maxAttempts) /\
        Start w m =
          (Returned (Some "servers not ready: servers not ready after 20 attempts"),
           {| um := s1; now := now m + maxAttempts |}, t1 ++ tw)
    | Some k =>
        let mk := {| um := s1; now := now m + k |} in
        events tw = flat_map (failedAttempt w p) (seq (now m) k) ++ passedAttempt p /\
        match dialErr w (now m + k) target with
        | Some e =>
            Start w m =
              (Returned (Some ("failed to initialize gRPC client: " +:+
                               ("failed to connect gRPC client: " +:+ e))),
               mk, t1 ++ tw ++ [(EvDial target (Some e), mk)])
        | None =>
            Start w m =
              (Blocked,
               {| um := set_serverReady true
                          (set_grpcClient (Some NewUltraServiceClient)
                             (set_grpcConn (Some Open) s1));
                  now := now m + k |},
               t1 ++ tw ++ clientConstruction mk)
        end
    end.
Proof.
  intros Hmu p target s1.
  destruct (startMux_run m Hmu) as (t1 & Hstart & Ht1).
  fold s1 in Hstart.
  set (m1 := {| um := s1; now := now m |}) in *.
  assert (Hp : port (um m1) = p) by (destruct m as [[] ?]; reflexivity).
  assert (Hp1 : port s1 = p) by exact Hp.
  destruct (waitLoop_run w maxAttempts m1) as (tw & Htw & Hrun).
  rewrite Hp in Hrun. cbn [um now m1] in Hrun, Htw.
  exists t1, tw. split; [exact Hstart|]. split; [exact Ht1|]. split; [exact Htw|].
  assert (HStart : Start w m =
            let r := waitLoop w maxAttempts m1 in
            match fst (fst r) with
            | Returned None =>
                let r' := initGRPCClient w (snd (fst r)) in
                (match fst (fst r') with
                 | Returned (Some e) =>
                     Returned (Some ("failed to initialize gRPC client: " +:+ e))
                 | Returned None => Blocked
                 | Blocked => Blocked
                 | Crashed msg => Crashed msg
                 end, snd (fst r'), t1 ++ snd r ++ snd r')
            | Returned (Some e) =>
                (Returned (Some ("servers not ready: " +:+ e)), snd (fst r),
                 t1 ++ snd r ++ [])
            | Blocked => (Blocked, snd (fst r), t1 ++ snd r)
            | Crashed msg => (Crashed msg, snd (fst r), t1 ++ snd r)
            end).
  { unfold Start, waitForServerReady. rewrite bind_run, Hstart. cbv zeta.
    rewrite bind_run.
    destruct (waitLoop w maxAttempts m1) as [[[[e|]| |msg] m2] t2]; cbn [fst snd];
      try reflexivity.
    rewrite bind_run.
    destruct (initGRPCClient w m2) as [[[[e|]| |msg] m3] t3]; cbn [fst snd];
      try reflexivity; unfold ret, block; cbn [fst snd]; rewrite app_nil_r;
      reflexivity. }
  rewrite HStart. cbv zeta.
  destruct (firstPass w p (now m) maxAttempts) as [k|].
  - destruct Hrun as [Hrun Hev]. rewrite Hrun. split; [exact Hev|].
    cbn [fst snd]. rewrite initGRPCClient_run. cbn [um now]. rewrite Hp1.
    fold target. destruct (dialErr w (now m + k) target); reflexivity.
  - destruct Hrun as [Hrun Hev]. rewrite Hrun. split; [exact Hev|].
    cbn [fst snd]. rewrite app_nil_r. reflexivity.
Qed.

Lemma filter_nil_Forall {X} (f : X -> bool) (xs : list X) :
  Forall (fun x => f x = false) xs -> List.filter f xs = [].
Proof.
  induction 1 as [|x xs Hx _ IH]; [reflexivity|].
  cbn [List.filter]. rewrite Hx. exact IH.
Qed.

Lemma sameResources_muxStarted (s : UltraMultiplexer) (v : bool) :
  sameResources s (set_muxStarted v s).
Proof. destruct s; repeat split. Qed.

Lemma Start_exhausted (w : World) (m : Machine) :
  mu (um m) = Unlocked ->
  (forall j, j < 20 -> passes w (port (um m)) (now m + j) = false) ->
  exists m' t,
    Start w m =
      (Returned (Some "servers not ready: servers not ready after 20 attempts"), m', t) /\
    um m' = set_muxStarted true (um m) /\
    Forall (fun st : Step =>
              sameResources (um m) (um (snd st)) /\ isClose (fst st) = false) t.
Proof.
  intros Hmu Hfail.
  destruct (Start_run w m Hmu) as (t1 & tw & _ & Ht1 & Htw & Hrun).
  rewrite (firstPass_all_fail w _ maxAttempts (now m) Hfail) in Hrun.
  destruct Hrun as [Hev Hrun].
  do 2 eexists. split; [exact Hrun|]. split; [reflexivity|].
  apply List.Forall_app; split.
  - eapply List.Forall_impl; [|exact Ht1]. cbn. tauto.
  - assert (Hnc : Forall (fun e => isClose e = false) (events tw)).
    { rewrite Hev. clear. induction (seq (now m) maxAttempts) as [|t ts IH]; [constructor|].
      cbn [flat_map]. apply List.Forall_app; split; [|exact IH].
      unfold failedAttempt. destruct (httpAnswers w t _); repeat constructor. }
    unfold events in Hnc. rewrite List.Forall_map in Hnc.
    clear - Htw Hnc. induction tw as [|st tw IH]; [constructor|].
    inversion Htw; inversion Hnc; subst. constructor; [|apply IH; assumption].
    split; [|assumption].
    match goal with H : um (snd st) = _ |- _ => rewrite H end.
    apply sameResources_muxStarted.
Qed.

(** C3 (as the code has it). When none of the 20 attempts passes,
    [Start] returns the not-ready error, and it does so without closing
    anything: no close call is made, and listener, mux, servers and
    client connection are, at every step and at the end, what they were
    when [Start] was called. *)
Theorem Start_not_ready_no_teardown (w : World) (m : Machine) :
  mu (um m) = Unlocked ->
  (forall j, j < 20 -> passes w (port (um m)) (now m + j) = false) ->
  exists m' t,
    Start w m =
      (Returned (Some "servers not ready: servers not ready after 20 attempts"), m', t) /\
    List.filter isClose (events t) = [] /\
    Forall (fun st : Step => sameResources (um m) (um (snd st))) t /\
    sameResources (um m) (um m').
Proof.
  intros Hmu Hfail.
  destruct (Start_exhausted w m Hmu Hfail) as (m' & t & Hrun & Hum & Hsteps).
  exists m', t. split; [exact Hrun|]. split; [|split].
  - apply filter_nil_Forall. unfold events. rewrite List.Forall_map.
    eapply List.Forall_impl; [|exact Hsteps]. cbn. tauto.
  - eapply List.Forall_impl; [|exact Hsteps]. cbn. tauto.
  - rewrite Hum. apply sameResources_muxStarted.
Qed.

Lemma Start_not_ready_no_teardown_witness :
  exists m' t,
    Start worldDown boundMachine =
      (Returned (Some "servers not ready: servers not ready after 20 attempts"), m', t) /\
    List.filter isClose (events t) = [] /\
    Forall (fun st : Step => sameResources (um boundMachine) (um (snd st))) t /\
    sameResources (um boundMachine) (um m').
Proof.
  apply (Start_not_ready_no_teardown worldDown boundMachine).
  - reflexivity.
  - intros j _. reflexivity.
Defined.

(** The same run seen from [main]: the error ends the process through
    [log.Fatalf], with the listener and both servers still open. *)
Lemma main_not_ready (w : World) :
  listenErr w ":8080" = None ->
  (forall j, j < 20 -> passes w "8080" j = false) ->
  exists m' t,
    main w =
      (Crashed "Failed to start: servers not ready: servers not ready after 20 attempts",
       m', t) /\
    List.filter isClose (events t) = [] /\
    listener (um m') = Some Open /\
    httpServer (um m') = Some Open /\
    grpcServer (um m') = Some Open.
Proof.
  intros Hl Hfail.
  destruct (Initialize_run w fresh Hl)
    as (m0 & t0 & Hinit & _ & Hwire & HL & HH & HG & Hshape & Hnc).
  destruct Hshape as (Hmu & Hport & Hnow & _).
  destruct (Start_exhausted w m0 Hmu) as (m' & t & Hrun & Hum & Hsteps).
  { rewrite Hport, Hnow. exact Hfail. }
  assert (Hclose : List.filter isClose (events t) = []).
  { apply filter_nil_Forall. unfold events. rewrite List.Forall_map.
    eapply List.Forall_impl; [|exact Hsteps]. cbn. tauto. }
  assert (Hsame : sameResources (um m0) (um m')).
  { rewrite Hum. apply sameResources_muxStarted. }
  exists m', (t0 ++ t). unfold main, main_body. fold fresh.
  rewrite bind_run, Hinit. cbv zeta. rewrite bind_run, Hrun. cbn [fst snd].
  split; [unfold Fatalf, crash; rewrite app_nil_r; reflexivity|].
  destruct Hsame as (H1 & _ & H3 & H4 & _).
  rewrite events_app, List.filter_app, Hnc, Hclose.
  repeat split; congruence.
Qed.

(** C3, as worded, fails: with the port bound and no probe ever
    answered, [Start] returns the error while the HTTP server (and the
    rest) is still open. *)
Lemma teardown_counterexample :
  ~ tearsDownOnNotReady worldDown boundMachine.
Proof.
  intros H. destruct (H eq_refl) as (e & m' & t & Hrun & Hhttp & _).
  apply Hhttp.
  change m' with (snd (fst (Returned (Some e), m', t))).
  rewrite <- Hrun. vm_compute. reflexivity.
Qed.

(** ** The lock discipline *)

(** The write to [muxStarted] in [startMux] is made under the lock. *)
Lemma startMux_guarded (m : Machine) :
  mu (um m) = Unlocked -> forallb guarded (snd (startMux m)) = true.
Proof.
  intros Hmu. destruct (muxStarted (um m)) eqn:Hflag.
  - rewrite (startMux_again m Hmu Hflag). destruct m as [[] ?]; reflexivity.
  - rewrite (startMux_first m Hmu Hflag). destruct m as [[] ?]; reflexivity.
Qed.

(** The write to [serverReady] in [initGRPCClient] is made with the
    mutex in whatever condition it was found: the function never locks. *)
Lemma initGRPCClient_never_locks (w : World) (m : Machine) :
  Forall (fun st : Step => mu (um (snd st)) = mu (um m)) (snd (initGRPCClient w m)).
Proof.
  rewrite initGRPCClient_run.
  destruct (dialErr w (now m) _); repeat constructor; destruct m as [[] ?]; reflexivity.
Qed.

(** C4 (evaluated). In the startup run of [main] where everything
    answers, exactly one step breaks the discipline "flags are written
    under the mutex": the assignment [um.serverReady = true], made by
    [initGRPCClient] while the mutex is unlocked. *)
Theorem serverReady_store_unguarded :
  List.filter (fun st => negb (guarded st)) (snd (main worldUp)) =
    [(EvStore FServerReady, readyMachine)] /\
  mu (um readyMachine) = Unlocked /\
  serverReady (um readyMachine) = true.
Proof. split; [|split]; vm_compute; reflexivity. Qed.

(** ** The handler for [/grpc-call] *)

Lemma isGRPCClientReady_run (m : Machine) :
  mu (um m) <> WriteLocked ->
  exists t,
    isGRPCClientReady m = (Returned (serverReady (um m)), m, t) /\
    events t = [EvRLock; EvRUnlock].
Proof.
  intros Hmu. destruct m as [s n]; destruct s; cbn [um mu] in Hmu.
  destruct mu0 as [| |k]; [|congruence|]; eexists; split; reflexivity.
Qed.

Lemma Error_status (rw : ResponseWriter) (msg : string) (code : nat) :
  status rw = None ->
  status (Error rw msg code) = Some code /\
  body (Error rw msg code) = body rw ++ [Text (msg +:+ String "010"%char EmptyString)].
Proof.
  intros H. unfold Error, Write, WriteHeader, HeaderSet, HeaderDel.
  cbn [status body header]. rewrite H. cbn [status body]. split; reflexivity.
Qed.

Lemma Encode_status (rw : ResponseWriter) (o : gmap string string) :
  status rw = None ->
  status (Encode o rw) = Some StatusOK /\ body (Encode o rw) = body rw ++ [JSON o].
Proof.
  intros H. unfold Encode, Write, WriteHeader. rewrite H. split; reflexivity.
Qed.

(** The name the handler greets. *)
Lemma callGRPC_run (w : World) (rw : ResponseWriter) (r : Request) (m : Machine) :
  mu (um m) <> WriteLocked ->
  clientInv (um m) ->
  let name := if String.eqb (Get (Query r) "name") "" then "World"
              else Get (Query r) "name" in
  let req := {| Name := name |} in
  exists t,
    callGRPC w rw r m =
      (Returned
         (if negb (serverReady (um m)) then
            Error rw "gRPC client not ready" StatusServiceUnavailable
          else
            match callErr w (now m) req with
            | Some e => Error rw ("gRPC call failed: " +:+ e) StatusInternalServerError
            | None =>
                Encode (<["grpc_response" := "Hello " +:+ name +:+ " from Ultra Multiplexer!"]> ∅)
                       (HeaderSet "Content-Type" "application/json" rw)
            end),
       m, t) /\
    events t =
      [EvRLock; EvRUnlock] ++
      (if serverReady (um m) then [EvCall req (callErr w (now m) req)] else []).
Proof.
  intros Hmu Hinv name req.
  destruct (isGRPCClientReady_run m Hmu) as (t0 & Hready & Hev0).
  unfold callGRPC. rewrite bind_run, Hready.
  destruct (serverReady (um m)) eqn:Hflag; cbn [negb].
  - fold name. fold req. rewrite bind_run.
    assert (Hcall : clientSayHello w req m =
              match callErr w (now m) req with
              | Some e => (Returned (None, Some e), m, [(EvCall req (Some e), m)])
              | None =>
                  (Returned (Some (fst (SayHello req)), None), m, [(EvCall req None, m)])
              end).
    { specialize (Hinv Hflag). clear - Hinv.
      destruct m as [s n]. cbn [um now] in *.
      unfold clientSayHello, bind, get, clock. cbn [um now].
      destruct (grpcClient s) as [[]|]; [|congruence].
      destruct (callErr w n req) as [e|]; reflexivity. }
    rewrite Hcall.
    destruct (callErr w (now m) req) as [e|]; cbn [fst snd].
    + eexists. split; [reflexivity|].
      rewrite events_app, Hev0. reflexivity.
    + eexists. split; [reflexivity|].
      rewrite events_app, Hev0. reflexivity.
  - eexists. split; [reflexivity|].
    cbn [snd]. rewrite app_nil_r, Hev0. reflexivity.
Qed.

Lemma ServeHTTP_grpc_call_route (w : World) (rw : ResponseWriter) (r : Request) :
  Path r = "/grpc-call" -> ServeHTTP w rw r = callGRPC w rw r.
Proof. intros H. unfold ServeHTTP. rewrite H. reflexivity. Qed.

(** C1 (as the code has it). A request to [/grpc-call] is answered with
    503 when the loop-back client is not ready (and then no call is
    made), with 500 when the client is ready and the call fails, and
    otherwise with 200 and the JSON body [{"grpc_response": "Hello <name>
    from Ultra Multiplexer!"}], where [<name>] is the request's [name]
    query parameter if that is not empty, and ["World"] if it is empty
    or absent. *)
Theorem ServeHTTP_grpc_call (w : World) (rw : ResponseWriter) (r : Request) (m : Machine) :
  Path r = "/grpc-call" ->
  status rw = None ->
  mu (um m) <> WriteLocked ->
  clientInv (um m) ->
  let name := if String.eqb (Get (Query r) "name") "" then "World"
              else Get (Query r) "name" in
  let req := {| Name := name |} in
  exists rw' t,
    ServeHTTP w rw r m = (Returned rw', m, t) /\
    (serverReady (um m) = false ->
       status rw' = Some 503 /\ events t = [EvRLock; EvRUnlock]) /\
    (serverReady (um m) = true ->
       forall e, callErr w (now m) req = Some e -> status rw' = Some 500) /\
    (serverReady (um m) = true ->
       callErr w (now m) req = None ->
       status rw' = Some 200 /\
       body rw' =
         body rw ++
         [JSON (<["grpc_response" := "Hello " +:+ name +:+ " from Ultra Multiplexer!"]> ∅)]).
Proof.
  intros Hpath Hstatus Hmu Hinv name req.
  rewrite (ServeHTTP_grpc_call_route w rw r Hpath).
  destruct (callGRPC_run w rw r m Hmu Hinv) as (t & Hrun & Hev).
  fold name in Hrun, Hev. fold req in Hrun, Hev.
  do 2 eexists. split; [exact Hrun|].
  split; [|split].
  - intros Hflag. rewrite Hflag in *. cbn [negb].
    split; [apply Error_status, Hstatus | rewrite Hev; reflexivity].
  - intros Hflag e He. rewrite Hflag, He. cbn [negb].
    apply Error_status, Hstatus.
  - intros Hflag He. rewrite Hflag, He. cbn [negb].
    apply (Encode_status (HeaderSet "Content-Type" "application/json" rw)).
    exact Hstatus.
Qed.

Lemma clientInv_after_worldUp : clientInv (um readyMachine).
Proof. intros _. discriminate. Qed.

Lemma ServeHTTP_grpc_call_witness :
  let r := grpcCallRequest "Ann" in
  let m := readyMachine in
  let name := if String.eqb (Get (Query r) "name") "" then "World"
              else Get (Query r) "name" in
  let req := {| Name := name |} in
  exists rw' t,
    ServeHTTP worldUp NewResponse r m = (Returned rw', m, t) /\
    (serverReady (um m) = false ->
       status rw' = Some 503 /\ events t = [EvRLock; EvRUnlock]) /\
    (serverReady (um m) = true ->
       forall e, callErr worldUp (now m) req = Some e -> status rw' = Some 500) /\
    (serverReady (um m) = true ->
       callErr worldUp (now m) req = None ->
       status rw' = Some 200 /\
       body rw' =
         body NewResponse ++
         [JSON (<["grpc_response" := "Hello " +:+ name +:+ " from Ultra Multiplexer!"]> ∅)]).
Proof.
  apply (ServeHTTP_grpc_call worldUp NewResponse (grpcCallRequest "Ann") readyMachine).
  - reflexivity.
  - reflexivity.
  - discriminate.
  - exact clientInv_after_worldUp.
Defined.

(** The scenario of the specification: after full readiness,
    [/grpc-call?name=Ann] answers 200 with the greeting for Ann. *)
Example grpc_call_Ann :
  exists rw t,
    ServeHTTP worldUp NewResponse (grpcCallRequest "Ann") readyMachine =
      (Returned rw, readyMachine, t) /\
    status rw = Some 200 /\
    body rw = [JSON (<["grpc_response" := "Hello Ann from Ultra Multiplexer!"]> ∅)].
Proof.
  destruct (callGRPC_run worldUp NewResponse (grpcCallRequest "Ann") readyMachine)
    as (t & Hrun & _); [discriminate | exact clientInv_after_worldUp |].
  eexists _, t. split.
  - rewrite ServeHTTP_grpc_call_route by reflexivity. exact Hrun.
  - split; reflexivity.
Qed.

(** Before readiness the same request is refused, and a failing
    loop-back call gives 500. *)
Example grpc_call_before_ready :
  option_map status
    (match fst (fst (ServeHTTP worldUp NewResponse (grpcCallRequest "Ann") boundMachine)) with
     | Returned rw => Some rw | _ => None end) = Some (Some 503).
Proof. vm_compute. reflexivity. Qed.

Example grpc_call_failing :
  option_map status
    (match fst (fst (ServeHTTP worldFlaky NewResponse (grpcCallRequest "Ann") (snd (fst (main worldFlaky))))) with
     | Returned rw => Some rw | _ => None end) = Some (Some 500).
Proof. vm_compute. reflexivity. Qed.

Lemma Get_absent (v : gmap string (list string)) (key : string) :
  v !! key = None -> Get v key = "".
Proof. intros H. unfold Get. rewrite H. reflexivity. Qed.

Lemma Get_empty (v : gmap string (list string)) (key : string) (rest : list string) :
  v !! key = Some ("" :: rest) -> Get v key = "".
Proof. intros H. unfold Get. rewrite H. reflexivity. Qed.

(** C9. When the [name] query parameter of a request to [/grpc-call] is
    absent or empty, the handler calls the service with the name
    ["World"]; so when the client is ready and the call goes through, the
    answer is 200 with [{"grpc_response": "Hello World from Ultra
    Multiplexer!"}]. *)
Theorem ServeHTTP_grpc_call_default_name
    (w : World) (rw : ResponseWriter) (r : Request) (m : Machine) :
  Path r = "/grpc-call" ->
  (Query r !! "name" = None \/ exists rest, Query r !! "name" = Some ("" :: rest)) ->
  status rw = None ->
  mu (um m) <> WriteLocked ->
  clientInv (um m) ->
  serverReady (um m) = true ->
  callErr w (now m) {| Name := "World" |} = None ->
  exists rw' t,
    ServeHTTP w rw r m = (Returned rw', m, t) /\
    events t = [EvRLock; EvRUnlock; EvCall {| Name := "World" |} None] /\
    status rw' = Some 200 /\
    body rw' =
      body rw ++ [JSON (<["grpc_response" := "Hello World from Ultra Multiplexer!"]> ∅)].
Proof.
  intros Hpath Hname Hstatus Hmu Hinv Hflag Hcall.
  assert (Hget : Get (Query r) "name" = "").
  { destruct Hname as [H|[rest H]]; [apply Get_absent | eapply Get_empty]; exact H. }
  rewrite (ServeHTTP_grpc_call_route w rw r Hpath).
  destruct (callGRPC_run w rw r m Hmu Hinv) as (t & Hrun & Hev).
  rewrite Hget in Hrun, Hev. cbn [String.eqb] in Hrun, Hev.
  rewrite Hflag, Hcall in Hrun, Hev. cbn [negb] in Hrun.
  do 2 eexists. split; [exact Hrun|]. split; [exact Hev|].
  apply (Encode_status (HeaderSet "Content-Type" "application/json" rw)).
  exact Hstatus.
Qed.

Lemma ServeHTTP_grpc_call_default_name_witness :
  exists rw' t,
    ServeHTTP worldUp NewResponse (GET "/grpc-call" ∅) readyMachine =
      (Returned rw', readyMachine, t) /\
    events t = [EvRLock; EvRUnlock; EvCall {| Name := "World" |} None] /\
    status rw' = Some 200 /\
    body rw' =
      body NewResponse ++
      [JSON (<["grpc_response" := "Hello World from Ultra Multiplexer!"]> ∅)].
Proof.
  apply (ServeHTTP_grpc_call_default_name worldUp NewResponse (GET "/grpc-call" ∅)
           readyMachine).
  - reflexivity.
  - left. reflexivity.
  - reflexivity.
  - discriminate.
  - exact clientInv_after_worldUp.
  - reflexivity.
  - reflexivity.
Defined.

(** C1, as worded, fails for an empty name: the greeting is for
    "World", not for the (empty) query parameter. *)
Lemma greetsQueryName_counterexample :
  ~ greetsQueryName worldUp readyMachine (grpcCallRequest "").
Proof.
  intros H. destruct (H eq_refl eq_refl) as (rw & Hret & _ & Hbody).
  rewrite ServeHTTP_grpc_call_route in Hret by reflexivity.
  destruct (callGRPC_run worldUp NewResponse (grpcCallRequest "") readyMachine)
    as (t & Hrun & _); [discriminate | exact clientInv_after_worldUp |].
  rewrite Hrun in Hret. cbn [fst] in Hret. inversion Hret as [Hrw].
  rewrite <- Hrw in Hbody.
  apply (f_equal (fun b => match b with
                           | [JSON o] => o !! "grpc_response"
                           | _ => None
                           end)) in Hbody.
  vm_compute in Hbody. discriminate Hbody.
Qed.

(** ** The order of readiness and client construction *)

Lemma no_dial_in_attempts (w : World) (p : string) (ts : list nat) :
  Forall (fun e => isDial e = false) (flat_map (failedAttempt w p) ts ++ passedAttempt p).
Proof.
  apply List.Forall_app; split; [|repeat constructor].
  induction ts as [|t ts IH]; [constructor|].
  cbn [flat_map]. apply List.Forall_app; split; [|exact IH].
  unfold failedAttempt. destruct (httpAnswers w t _); repeat constructor.
Qed.

Lemma no_dial_in_failed (w : World) (p : string) (ts : list nat) :
  Forall (fun e => isDial e = false) (flat_map (failedAttempt w p) ts).
Proof.
  induction ts as [|t ts IH]; [constructor|].
  cbn [flat_map]. apply List.Forall_app; split; [|exact IH].
  unfold failedAttempt. destruct (httpAnswers w t _); repeat constructor.
Qed.

(** Steps that leave a given record and whose events are not dials. *)
Lemma wait_steps_quiet (s1 : UltraMultiplexer) (tw : list Step) :
  serverReady s1 = false ->
  Forall (fun st : Step => um (snd st) = s1) tw ->
  Forall (fun e => isDial e = false) (events tw) ->
  Forall (fun st : Step => serverReady (um (snd st)) = false /\ isDial (fst st) = false) tw.
Proof.
  intros Hs1 Hst Hev. unfold events in Hev. rewrite List.Forall_map in Hev.
  induction tw as [|st tw IH]; [constructor|].
  inversion Hst; inversion Hev; subst. constructor.
  - split; [congruence | assumption].
  - apply IH; assumption.
Qed.

(** A request for the loop-back client made while the flag is down is
    refused at once. *)
Lemma callGRPC_not_ready (w : World) (rw : ResponseWriter) (r : Request) (m : Machine) :
  serverReady (um m) = false ->
  mu (um m) <> WriteLocked ->
  status rw = None ->
  exists rw' t,
    callGRPC w rw r m = (Returned rw', m, t) /\
    status rw' = Some StatusServiceUnavailable /\
    events t = [EvRLock; EvRUnlock].
Proof.
  intros Hflag Hmu Hstatus.
  destruct (callGRPC_run w rw r m Hmu) as (t & Hrun & Hev).
  { intros H. congruence. }
  rewrite Hflag in Hrun, Hev. cbn [negb] in Hrun.
  do 2 eexists. split; [exact Hrun|].
  split; [apply Error_status, Hstatus | rewrite Hev; reflexivity].
Qed.

(** C5. In every run of [Start] from a record whose flag is down, the
    trace splits into what comes before the construction of the
    loop-back client and the construction itself. Before it the flag is
    down in every state and nothing is dialled; the construction, when
    it is reached, comes directly after an attempt in which the HTTP
    probe and then the gRPC probe passed; within it the flag is down
    until its last step, the store of [serverReady]. A handler asked
    for the loop-back client in any state with the flag down answers 503
    at once, without calling and without waiting for the client. *)
Theorem client_only_after_readiness (w : World) (m : Machine) :
  mu (um m) = Unlocked ->
  serverReady (um m) = false ->
  let p := port (um m) in
  exists o m' before build,
    Start w m = (o, m', before ++ build) /\
    Forall (fun st : Step =>
              serverReady (um (snd st)) = false /\ isDial (fst st) = false) before /\
    (build = [] \/
     exists pre mk,
       events before = pre ++ passedAttempt p /\
       serverReady (um mk) = false /\
       port (um mk) = p /\
       ((exists e, build = [(EvDial ("localhost:" +:+ p) (Some e), mk)]) \/
        (build = clientConstruction mk /\ o = Blocked /\ serverReady (um m') = true))) /\
    Forall (fun st : Step => serverReady (um (snd st)) = false) (removelast build) /\
    (forall (m2 : Machine) (rw : ResponseWriter) (r : Request),
       serverReady (um m2) = false ->
       mu (um m2) <> WriteLocked ->
       status rw = None ->
       exists rw' t,
         callGRPC w rw r m2 = (Returned rw', m2, t) /\
         status rw' = Some 503 /\
         events t = [EvRLock; EvRUnlock]).
Proof.
  intros Hmu Hflag p.
  destruct (Start_run w m Hmu) as (t1 & tw & _ & Ht1 & Htw & Hrun).
  fold p in Hrun.
  set (s1 := set_muxStarted true (um m)) in *.
  assert (Hs1 : serverReady s1 = false) by (subst s1; destruct m as [[] ?]; exact Hflag).
  assert (Hp1 : port s1 = p) by (subst s1 p; destruct m as [[] ?]; reflexivity).
  assert (Hquiet1 : Forall (fun st : Step =>
            serverReady (um (snd st)) = false /\ isDial (fst st) = false) t1).
  { eapply List.Forall_impl; [|exact Ht1]. cbn. intros st (H1 & _ & _ & _ & _ & H6).
    split; [congruence | exact H6]. }
  assert (Hhandler : forall (m2 : Machine) (rw : ResponseWriter) (r : Request),
            serverReady (um m2) = false -> mu (um m2) <> WriteLocked -> status rw = None ->
            exists rw' t, callGRPC w rw r m2 = (Returned rw', m2, t) /\
                          status rw' = Some 503 /\ events t = [EvRLock; EvRUnlock]).
  { intros m2 rw r. apply callGRPC_not_ready. }
  destruct (firstPass w p (now m) maxAttempts) as [k|].
  - destruct Hrun as [Hev Hrun].
    assert (Hquiet : Forall (fun st : Step =>
              serverReady (um (snd st)) = false /\ isDial (fst st) = false) (t1 ++ tw)).
    { apply List.Forall_app; split; [exact Hquiet1|].
      apply (wait_steps_quiet s1); [exact Hs1 | exact Htw |].
      rewrite Hev. apply no_dial_in_attempts. }
    assert (Hpre : events (t1 ++ tw) =
                   (events t1 ++ flat_map (failedAttempt w p) (seq (now m) k))
                     ++ passedAttempt p).
    { rewrite events_app, Hev, app_assoc. reflexivity. }
    set (mk := {| um := s1; now := now m + k |}) in *.
    destruct (dialErr w (now m + k) _) as [e|].
    + exists (Returned (Some ("failed to initialize gRPC client: " +:+
                              ("failed to connect gRPC client: " +:+ e)))),
        mk, (t1 ++ tw), [(EvDial ("localhost:" +:+ p) (Some e), mk)].
      split; [rewrite Hrun, app_assoc; reflexivity|].
      split; [exact Hquiet|]. split; [|split; [constructor|exact Hhandler]].
      right. exists (events t1 ++ flat_map (failedAttempt w p) (seq (now m) k)), mk.
      repeat split; try assumption. left. exists e. reflexivity.
    + eexists Blocked, _, (t1 ++ tw), (clientConstruction mk).
      split; [rewrite Hrun, app_assoc; reflexivity|].
      split; [exact Hquiet|]. split; [|split; [|exact Hhandler]].
      * right. exists (events t1 ++ flat_map (failedAttempt w p) (seq (now m) k)), mk.
        repeat split; try assumption. right. repeat split.
      * cbn [clientConstruction removelast]. repeat constructor; cbn; exact Hs1.
  - destruct Hrun as [Hev Hrun].
    eexists _, _, (t1 ++ tw), []. rewrite app_nil_r.
    split; [exact Hrun|]. split; [|split; [left; reflexivity|split; [constructor|exact Hhandler]]].
    apply List.Forall_app; split; [exact Hquiet1|].
    apply (wait_steps_quiet s1); [exact Hs1 | exact Htw |].
    rewrite Hev. apply no_dial_in_failed.
Qed.

Lemma client_only_after_readiness_witness :
  let p := port (um boundMachine) in
  exists o m' before build,
    Start worldUp boundMachine = (o, m', before ++ build) /\
    Forall (fun st : Step =>
              serverReady (um (snd st)) = false /\ isDial (fst st) = false) before /\
    (build = [] \/
     exists pre mk,
       events before = pre ++ passedAttempt p /\
       serverReady (um mk) = false /\
       port (um mk) = p /\
       ((exists e, build = [(EvDial ("localhost:" +:+ p) (Some e), mk)]) \/
        (build = clientConstruction mk /\ o = Blocked /\ serverReady (um m') = true))) /\
    Forall (fun st : Step => serverReady (um (snd st)) = false) (removelast build) /\
    (forall (m2 : Machine) (rw : ResponseWriter) (r : Request),
       serverReady (um m2) = false ->
       mu (um m2) <> WriteLocked ->
       status rw = None ->
       exists rw' t,
         callGRPC worldUp rw r m2 = (Returned rw', m2, t) /\
         status rw' = Some 503 /\
         events t = [EvRLock; EvRUnlock]).
Proof.
  apply (client_only_after_readiness worldUp boundMachine); reflexivity.
Defined.

(** * Further properties of the program *)

(** ** The other HTTP handlers *)

Lemma healthCheck_run (w : World) (rw : ResponseWriter) (r : Request) (m : Machine) :
  healthCheck w rw r m =
    (Returned (Encode (<["status" := "ok"]>
                      (<["service" := "ultra-multiplexer"]>
                      (<["timestamp" := rfc3339 w (now m)]> ∅)))
                 (HeaderSet "Content-Type" "application/json" rw)),
     m, []).
Proof. destruct m; reflexivity. Qed.

(** X1. [/health] is answered with 200 and the JSON object [{status: ok,
    service: ultra-multiplexer, timestamp: <now>}] in whatever condition
    the multiplexer is: it reads no flag, takes no lock (so it answers
    also while the write lock is held) and leaves no trace. *)
Theorem health_always_ok (w : World) (rw : ResponseWriter) (r : Request) (m : Machine) :
  Path r = "/health" ->
  status rw = None ->
  exists rw',
    ServeHTTP w rw r m = (Returned rw', m, []) /\
    status rw' = Some 200 /\
    header rw' !! "Content-Type" = Some ["application/json"] /\
    body rw' =
      body rw ++ [JSON (<["status" := "ok"]>
                       (<["service" := "ultra-multiplexer"]>
                       (<["timestamp" := rfc3339 w (now m)]> ∅)))].
Proof.
  intros Hpath Hstatus. unfold ServeHTTP. rewrite Hpath, String.eqb_refl.
  rewrite healthCheck_run. eexists. split; [reflexivity|].
  destruct (Encode_status (HeaderSet "Content-Type" "application/json" rw)
              (<["status" := "ok"]>
               (<["service" := "ultra-multiplexer"]>
               (<["timestamp" := rfc3339 w (now m)]> ∅))) Hstatus) as [H1 H2].
  split; [exact H1|]. split; [|exact H2].
  unfold Encode, Write, WriteHeader, HeaderSet. cbn [status header].
  rewrite Hstatus. cbn [header]. apply lookup_insert_eq.
Qed.

Lemma health_always_ok_witness :
  exists rw',
    ServeHTTP worldDown NewResponse (GET "/health" ∅)
      {| um := set_mu WriteLocked wired; now := 7 |} =
      (Returned rw', {| um := set_mu WriteLocked wired; now := 7 |}, []) /\
    status rw' = Some 200 /\
    header rw' !! "Content-Type" = Some ["application/json"] /\
    body rw' =
      body NewResponse ++ [JSON (<["status" := "ok"]>
                       (<["service" := "ultra-multiplexer"]>
                       (<["timestamp" := rfc3339 worldDown 7]> ∅)))].
Proof.
  apply (health_always_ok worldDown NewResponse (GET "/health" ∅)
           {| um := set_mu WriteLocked wired; now := 7 |}); reflexivity.
Defined.

(** X2. Any path other than [/health], [/proxy] and [/grpc-call] gets
    200 with the JSON echo of the request's method and path; the
    multiplexer is not consulted. *)
Theorem unknown_path_echo (w : World) (rw : ResponseWriter) (r : Request) (m : Machine) :
  Path r <> "/health" -> Path r <> "/proxy" -> Path r <> "/grpc-call" ->
  status rw = None ->
  exists rw',
    ServeHTTP w rw r m = (Returned rw', m, []) /\
    status rw' = Some 200 /\
    body rw' =
      body rw ++ [JSON (<["message" := "Ultra Multiplexer HTTP Server"]>
                       (<["method" := Method r]>
                       (<["path" := Path r]> ∅)))].
Proof.
  intros H1 H2 H3 Hstatus. unfold ServeHTTP.
  apply String.eqb_neq in H1, H2, H3. rewrite H1, H2, H3.
  unfold defaultHandler, ret. eexists. split; [reflexivity|].
  apply (Encode_status (HeaderSet "Content-Type" "application/json" rw)).
  exact Hstatus.
Qed.

Lemma unknown_path_echo_witness :
  exists rw',
    ServeHTTP worldUp NewResponse
      {| Method := "POST"; Path := "/health/"; Query := ∅ |} fresh =
      (Returned rw', fresh, []) /\
    status rw' = Some 200 /\
    body rw' =
      body NewResponse ++ [JSON (<["message" := "Ultra Multiplexer HTTP Server"]>
                       (<["method" := "POST"]>
                       (<["path" := "/health/"]> ∅)))].
Proof.
  apply (unknown_path_echo worldUp NewResponse
           {| Method := "POST"; Path := "/health/"; Query := ∅ |} fresh);
    (discriminate || reflexivity).
Defined.

(** ** [proxyRequest] *)



Lemma proxyRequest_fetch (w : World) (rw : ResponseWriter) (r : Request) (m : Machine) :
  Get (Query r) "target" <> "" ->
  httpClient (um m) <> None ->
  proxyRequest w rw r m =
    (Returned
       match fetch w (now m) (Get (Query r) "target") with
       | inr e => Error rw e StatusInternalServerError
       | inl resp =>
           Write (Text (RespBody resp))
             (WriteHeader (StatusCode resp)
                (map_fold (fun key values rw =>
                             foldl (fun rw value => HeaderAdd key value rw) rw values)
                          rw (RespHeader resp)))
       end,
     m, []).
Proof.
  intros Htarget Hclient. unfold proxyRequest.
  apply String.eqb_neq in Htarget. rewrite Htarget.
  destruct m as [s n]. unfold bind, get, clock. cbn [um now] in *.
  destruct (httpClient s); [|congruence].
  destruct (fetch w n _); reflexivity.
Qed.

(** X4. When the upstream request of [/proxy?target=<url>] fails, the
    answer is 500 with the error text. *)
Theorem proxy_upstream_failure (w : World) (rw : ResponseWriter) (r : Request)
    (m : Machine) (e : string) :
  Path r = "/proxy" ->
  Get (Query r) "target" <> "" ->
  httpClient (um m) <> None ->
  fetch w (now m) (Get (Query r) "target") = inr e ->
  status rw = None ->
  exists rw',
    ServeHTTP w rw r m = (Returned rw', m, []) /\
    status rw' = Some 500 /\
    body rw' = body rw ++ [Text (e +:+ String "010"%char "")].
Proof.
  intros Hpath Htarget Hclient Hfetch Hstatus.
  unfold ServeHTTP. rewrite Hpath. cbn [String.eqb Ascii.eqb Bool.eqb].
  rewrite (proxyRequest_fetch w rw r m Htarget Hclient), Hfetch.
  eexists. split; [reflexivity|]. apply Error_status. exact Hstatus.
Qed.

Lemma proxy_upstream_failure_witness :
  exists rw',
    ServeHTTP worldUp NewResponse (GET "/proxy" (<["target" := ["http://example.org/"]]> ∅))
      readyMachine = (Returned rw', readyMachine, []) /\
    status rw' = Some 500 /\
    body rw' = body NewResponse ++ [Text ("connection refused" +:+ String "010"%char "")].
Proof.
  apply (proxy_upstream_failure worldUp NewResponse
           (GET "/proxy" (<["target" := ["http://example.org/"]]> ∅)) readyMachine).
  - reflexivity.
  - vm_compute. discriminate.
  - discriminate.
  - vm_compute. reflexivity.
  - reflexivity.
Defined.

(** Adding the values of one key. *)
Lemma foldl_HeaderAdd (key : string) (values : list string) (rw : ResponseWriter) :
  let rw' := foldl (fun rw value => HeaderAdd key value rw) rw values in
  status rw' = status rw /\ body rw' = body rw /\
  forall k,
    header rw' !! k =
      if decide (k = key) then
        match values with
        | [] => header rw !! k
        | _ => Some (default [] (header rw !! k) ++ values)
        end
      else header rw !! k.
Proof.
  revert rw. induction values as [|v vs IH]; intros rw; cbn [foldl].
  - repeat split. intros k. destruct (decide (k = key)); reflexivity.
  - destruct (IH (HeaderAdd key v rw)) as (Hs & Hb & Hh). cbv zeta in *.
    rewrite Hs, Hb. repeat split. intros k. rewrite Hh.
    unfold HeaderAdd. cbn [header].
    destruct (decide (k = key)) as [->|Hne].
    + destruct vs as [|v' vs']; rewrite lookup_insert_eq; cbn [default];
        [reflexivity | unfold id; rewrite <- app_assoc; reflexivity].
    + rewrite lookup_insert_ne by congruence. reflexivity.
Qed.

Lemma copy_header (h : gmap string (list string)) (rw : ResponseWriter) :
  let rw' := map_fold (fun key values rw =>
                         foldl (fun rw value => HeaderAdd key value rw) rw values) rw h in
  status rw' = status rw /\ body rw' = body rw /\
  forall k, header rw' !! k = forwardedHeader h rw k.
Proof.
  cbv zeta. unfold forwardedHeader.
  apply (map_fold_weak_ind
           (fun (rw' : ResponseWriter) (h : gmap string (list string)) =>
              status rw' = status rw /\ body rw' = body rw /\
              forall k, header rw' !! k =
                match h !! k with
                | Some (value :: values) =>
                    Some (default [] (header rw !! k) ++ value :: values)
                | _ => header rw !! k
                end)).
  - split; [reflexivity|]. split; [reflexivity|].
    intros k. rewrite lookup_empty. reflexivity.
  - intros key values h' rw' Hfresh (Hs & Hb & Hh).
    destruct (foldl_HeaderAdd key values rw') as (Hs' & Hb' & Hh'). cbv zeta in *.
    rewrite Hs', Hb'. repeat split; try assumption.
    intros k. rewrite Hh'. destruct (decide (k = key)) as [->|Hne].
    + rewrite lookup_insert_eq, Hh, Hfresh. destruct values; reflexivity.
    + rewrite lookup_insert_ne by congruence. apply Hh.
Qed.



(** ** What handlers leave behind *)

Lemma readOnly_ret {A} (a : A) : readOnly (ret a).
Proof. intros m. split; reflexivity. Qed.

Lemma readOnly_crash {A} (msg : string) : readOnly (@crash A msg).
Proof. intros m. split; reflexivity. Qed.

Lemma readOnly_bind {A B} (c : M A) (k : A -> M B) :
  readOnly c -> (forall a, readOnly (k a)) -> readOnly (bind c k).
Proof.
  intros Hc Hk m. rewrite bind_run.
  destruct (Hc m) as [H1 H2].
  destruct (c m) as [[[a| |msg] m1] t1]; cbn [fst snd] in *; subst m1;
    try (split; [reflexivity | exact H2]).
  destruct (Hk a m) as [H3 H4].
  split; [exact H3|]. rewrite events_app, forallb_app, H2, H4. reflexivity.
Qed.

Lemma readOnly_isGRPCClientReady : readOnly isGRPCClientReady.
Proof.
  intros m. destruct m as [s n]; destruct s.
  destruct mu0 as [| |k]; split; reflexivity.
Qed.

Lemma readOnly_clientSayHello (w : World) (req : HelloRequest) :
  readOnly (clientSayHello w req).
Proof.
  intros m. destruct m as [s n].
  unfold clientSayHello, bind, get, clock. cbn [um now].
  destruct (grpcClient s) as [[]|]; [|split; reflexivity].
  destruct (callErr w n req); split; reflexivity.
Qed.

Lemma callGRPC_read_only (w : World) (rw : ResponseWriter) (r : Request) :
  readOnly (callGRPC w rw r).
Proof.
  unfold callGRPC. apply readOnly_bind; [apply readOnly_isGRPCClientReady|].
  intros ready. destruct (negb ready); [apply readOnly_ret|].
  apply readOnly_bind; [apply readOnly_clientSayHello|].
  intros [reply [e|]]; [apply readOnly_ret|].
  destruct reply; [apply readOnly_ret | apply readOnly_crash].
Qed.

Lemma proxyRequest_read_only (w : World) (rw : ResponseWriter) (r : Request) (m : Machine) :
  snd (fst (proxyRequest w rw r m)) = m /\ snd (proxyRequest w rw r m) = [].
Proof.
  destruct m as [s n]. unfold proxyRequest, bind, get, clock, ret, crash.
  destruct (String.eqb _ _); [split; reflexivity|]. cbn [um now].
  destruct (httpClient s); [|split; reflexivity].
  destruct (fetch w n _); split; reflexivity.
Qed.

Lemma ServeHTTP_readOnly (w : World) (rw : ResponseWriter) (r : Request) :
  readOnly (ServeHTTP w rw r).
Proof.
  intros m. unfold ServeHTTP.
  destruct (String.eqb (Path r) "/health").
  { rewrite healthCheck_run. split; reflexivity. }
  destruct (String.eqb (Path r) "/proxy").
  { destruct (proxyRequest_read_only w rw r m) as [H1 H2].
    rewrite H1, H2. split; reflexivity. }
  destruct (String.eqb (Path r) "/grpc-call").
  { apply callGRPC_read_only. }
  split; reflexivity.
Qed.


(** ** Start-up: the failure paths *)

Lemma Initialize_refused (w : World) (m : Machine) (e : string) :
  listenErr w (":" +:+ port (um m)) = Some e ->
  Initialize w m =
    (Returned (Some ("failed to create listener: " +:+ e)), m,
     [(EvListen (":" +:+ port (um m)) (Some e), m)]).
Proof.
  intros Hl. destruct m as [s n]. cbn [um] in *.
  unfold Initialize, bind, get. cbn [um]. rewrite Hl. reflexivity.
Qed.

(** X7. When the port cannot be bound, [Initialize] returns "failed to
    create listener: <err>" having done nothing else: the record is
    untouched (no listener, no mux, no servers are set by it), the bind
    attempt is its only action, and no goroutine was started. *)
Theorem Initialize_bind_failure (w : World) (m : Machine) (e : string) :
  listenErr w (":" +:+ port (um m)) = Some e ->
  fst (fst (Initialize w m)) = Returned (Some ("failed to create listener: " +:+ e)) /\
  snd (fst (Initialize w m)) = m /\
  events (snd (Initialize w m)) = [EvListen (":" +:+ port (um m)) (Some e)].
Proof.
  intros Hl. rewrite (Initialize_refused w m e Hl). repeat split.
Qed.

Lemma Initialize_bind_failure_witness :
  fst (fst (Initialize worldBusy fresh)) =
    Returned (Some ("failed to create listener: " +:+
                    "listen tcp :8080: bind: address already in use")) /\
  snd (fst (Initialize worldBusy fresh)) = fresh /\
  events (snd (Initialize worldBusy fresh)) =
    [EvListen (":" +:+ port (um fresh))
       (Some "listen tcp :8080: bind: address already in use")].
Proof.
  apply (Initialize_bind_failure worldBusy fresh
           "listen tcp :8080: bind: address already in use").
  reflexivity.
Defined.

(** X8. [main] with the port taken ends at once with the fatal message
    "Failed to initialize: failed to create listener: <err>": [Start] is
    never reached, nothing was started. *)
Theorem main_bind_failure (w : World) (e : string) :
  listenErr w ":8080" = Some e ->
  main w =
    (Crashed ("Failed to initialize: " +:+ ("failed to create listener: " +:+ e)),
     fresh, [(EvListen ":8080" (Some e), fresh)]).
Proof.
  intros Hl. unfold main, main_body. fold fresh.
  rewrite bind_run, (Initialize_refused w fresh e Hl). reflexivity.
Qed.

Lemma main_bind_failure_witness :
  main worldBusy =
    (Crashed ("Failed to initialize: " +:+
              ("failed to create listener: " +:+
               "listen tcp :8080: bind: address already in use")),
     fresh,
     [(EvListen ":8080" (Some "listen tcp :8080: bind: address already in use"), fresh)]).
Proof. apply (main_bind_failure worldBusy). reflexivity. Defined.

Lemma firstPass_first (w : World) (p : string) (n t0 k : nat) :
  k < n ->
  (forall j, j < k -> passes w p (t0 + j) = false) ->
  passes w p (t0 + k) = true ->
  firstPass w p t0 n = Some k.
Proof.
  intros Hlt Hbefore Hk.
  destruct (firstPass w p t0 n) as [k'|] eqn:Hf.
  - apply firstPass_Some in Hf as (Hlt' & Hk' & Hbefore').
    destruct (Nat.lt_trichotomy k k') as [H|[H|H]].
    + rewrite (Hbefore' k H) in Hk. discriminate.
    + congruence.
    + rewrite (Hbefore k' H) in Hk'. discriminate.
  - rewrite (firstPass_None w p n t0 Hf k Hlt) in Hk. discriminate.
Qed.



Lemma Start_blocked_on_lock (w : World) (m : Machine) :
  mu (um m) <> Unlocked -> Start w m = (Blocked, m, []).
Proof.
  intros Hmu. destruct m as [s n]; destruct s; cbn [um mu] in Hmu.
  unfold Start, startMux, Lock. unfold bind at 1. unfold bind at 1.
  unfold bind at 1. unfold get. cbn [um mu].
  destruct mu0; [congruence| |]; reflexivity.
Qed.

Lemma Start_outcome (w : World) (m : Machine) :
  fst (fst (Start w m)) = Blocked \/
  exists e, fst (fst (Start w m)) = Returned (Some e).
Proof.
  destruct (mu (um m)) eqn:Hmu.
  - destruct (Start_run w m Hmu) as (t1 & tw & _ & _ & _ & Hrun).
    destruct (firstPass w _ (now m) maxAttempts) as [k|].
    + destruct Hrun as [_ Hrun].
      destruct (dialErr w (now m + k) _) as [e|]; rewrite Hrun;
        [right; eexists; reflexivity | left; reflexivity].
    + destruct Hrun as [_ Hrun]. rewrite Hrun. right. eexists. reflexivity.
  - left. rewrite Start_blocked_on_lock; [reflexivity | congruence].
  - left. rewrite Start_blocked_on_lock; [reflexivity | congruence].
Qed.


(** ** Start-up: the order of things *)

Lemma Initialize_trace (w : World) (m : Machine) :
  listenErr w (":" +:+ port (um m)) = None ->
  events (snd (Initialize w m)) = initEvents (port (um m)).
Proof.
  intros Hl. destruct m as [s n]. cbn [um] in *.
  unfold Initialize, bind, get. cbn [um]. rewrite Hl. reflexivity.
Qed.

Lemma attempts_start_with_probe (w : World) (p : string) (t0 n : nat) (tail : list Event) :
  (n <> 0 \/ exists rest, tail = EvProbeHTTP ("http://localhost:" +:+ p +:+ "/health") true
                                   :: rest) ->
  exists ok rest,
    flat_map (failedAttempt w p) (seq t0 n) ++ tail =
      EvProbeHTTP ("http://localhost:" +:+ p +:+ "/health") ok :: rest.
Proof.
  intros H. destruct n as [|n].
  - destruct H as [H|[rest ->]]; [congruence|]. do 2 eexists. reflexivity.
  - cbn [seq flat_map]. unfold failedAttempt at 1.
    destruct (httpAnswers w t0 _); do 2 eexists; reflexivity.
Qed.

(** X11. When the port can be bound, [main] proceeds in this order: bind,
    register the two matchers, start the HTTP and the gRPC server, then
    (under the lock) raise [muxStarted] and start the mux accept loop,
    and only then make the first readiness probe. Nothing is probed or
    dialled before the accept loop has been launched. *)
Theorem main_startup_order (w : World) :
  listenErr w ":8080" = None ->
  exists ok rest,
    events (snd (main w)) =
      initEvents "8080" ++ startMuxEvents ++
      EvProbeHTTP "http://localhost:8080/health" ok :: rest.
Proof.
  intros Hl.
  destruct (Initialize_run w fresh Hl)
    as (m0 & t0 & Hinit & _ & _ & _ & _ & _ & Hshape & _).
  destruct Hshape as (Hmu & Hport & Hnow & Hready).
  pose proof (Initialize_trace w fresh Hl) as Hev0. rewrite Hinit in Hev0.
  cbn [snd] in Hev0.
  assert (Hflag : muxStarted (um m0) = false).
  { revert Hinit. unfold Initialize, bind, get. cbn [um fresh].
    change (":" +:+ port (NewUltraMultiplexer "8080")) with ":8080".
    rewrite Hl. intros H. inversion H. reflexivity. }
  destruct (Start_run w m0 Hmu) as (t1 & tw & Hstart & _ & _ & Hrun).
  rewrite (startMux_first m0 Hmu Hflag) in Hstart.
  inversion Hstart as [[Hs1 Ht1]]. clear Hstart Hs1.
  rewrite Hport in Hrun. change (port (um fresh)) with "8080" in Hrun.
  cbv zeta in Hrun.
  assert (HStart : exists ok rest tail,
            snd (Start w m0) = t1 ++ tail /\
            events tail = EvProbeHTTP "http://localhost:8080/health" ok :: rest).
  { destruct (firstPass w "8080" (now m0) maxAttempts) as [k|].
    - destruct Hrun as [Hev Hrun].
      destruct (attempts_start_with_probe w "8080" (now m0) k (passedAttempt "8080"))
        as (ok & rest & Heq); [right; eexists; reflexivity|].
      rewrite <- Hev in Heq.
      destruct (dialErr w (now m0 + k) _) as [e|]; rewrite Hrun; cbn [snd].
      + exists ok. eexists. eexists. split; [reflexivity|].
        rewrite events_app, Heq. reflexivity.
      + exists ok. eexists. eexists. split; [reflexivity|].
        rewrite events_app, Heq. reflexivity.
    - destruct Hrun as [Hev Hrun].
      destruct (attempts_start_with_probe w "8080" (now m0) maxAttempts [])
        as (ok & rest & Heq); [left; discriminate|].
      rewrite app_nil_r, <- Hev in Heq. rewrite Hrun. cbn [snd].
      exists ok, rest, tw. split; [reflexivity | exact Heq]. }
  destruct HStart as (ok & rest & tail & Htrace & Htail).
  exists ok, rest.
  unfold main, main_body. fold fresh. rewrite bind_run, Hinit. cbv zeta.
  cbn [snd fst]. rewrite events_app, Hev0.
  change (port (um fresh)) with "8080". f_equal.
  rewrite bind_run.
  destruct (Start w m0) as [[[[e|]| |msg] m1] tS]; cbn [fst snd] in *;
    subst tS; unfold Fatalf, crash, ret; cbn [snd];
    rewrite ?app_nil_r, events_app, Htail, <- Ht1; reflexivity.
Qed.

Lemma main_startup_order_witness :
  exists ok rest,
    events (snd (main worldUp)) =
      initEvents "8080" ++ startMuxEvents ++
      EvProbeHTTP "http://localhost:8080/health" ok :: rest.
Proof. apply (main_startup_order worldUp). reflexivity. Defined.

(** ** [Stop] and the flags *)



(** ** [ProcessData] on ASCII data *)

Lemma uppercase_byte (c : ascii) :
  let n := nat_of_ascii c in
  let c' := if ((97 <=? n) && (n <=? 122))%nat then ascii_of_nat (n - 32) else c in
  ((97 <=? nat_of_ascii c') && (nat_of_ascii c' <=? 122))%nat = false /\
  (n < 128 -> nat_of_ascii c' < 128).
Proof.
  cbv zeta.
  destruct ((97 <=? nat_of_ascii c) && (nat_of_ascii c <=? 122))%nat eqn:Hlow.
  - apply andb_true_iff in Hlow as [H1 H2].
    apply Nat.leb_le in H1, H2.
    rewrite nat_ascii_embedding by lia. split; [|lia].
    apply andb_false_iff. left. apply Nat.leb_gt. lia.
  - split; [exact Hlow | tauto].
Qed.

Lemma uppercase_length (s : string) :
  String.length (strings.uppercase s) = String.length s.
Proof.
  induction s as [|c s IH]; cbn [strings.uppercase String.length]; congruence.
Qed.

Lemma uppercase_allASCII (s : string) :
  strings.allASCII s = true -> strings.allASCII (strings.uppercase s) = true.
Proof.
  induction s as [|c s IH]; cbn [strings.uppercase strings.allASCII]; [tauto|].
  intros H. apply andb_true_iff in H as [Hc Hs]. cbv zeta.
  apply andb_true_iff. split; [|apply IH, Hs].
  apply Nat.ltb_lt. apply Nat.ltb_lt in Hc.
  apply (proj2 (uppercase_byte c)). exact Hc.
Qed.

Lemma uppercase_idempotent (s : string) :
  strings.uppercase (strings.uppercase s) = strings.uppercase s.
Proof.
  induction s as [|c s IH]; cbn [strings.uppercase]; [reflexivity|].
  cbv zeta. rewrite IH. f_equal.
  rewrite (proj1 (uppercase_byte c)). reflexivity.
Qed.

(** X13. On ASCII data [ProcessData] keeps the length, yields ASCII
    again, and is idempotent: processing its own output changes
    nothing. *)
Theorem ProcessData_ascii (f : string -> string) (d : string) :
  strings.allASCII d = true ->
  let out := Processed (fst (ProcessData f {| Data := d |})) in
  String.length out = String.length d /\
  strings.allASCII out = true /\
  ProcessData f {| Data := out |} = ProcessData f {| Data := d |}.
Proof.
  intros Hd. unfold ProcessData. cbn [fst Processed Data].
  rewrite (ToUpper_ascii f d Hd).
  split; [apply uppercase_length|].
  split; [apply uppercase_allASCII, Hd|].
  rewrite (ToUpper_ascii f _ (uppercase_allASCII d Hd)), uppercase_idempotent.
  reflexivity.
Qed.

Lemma ProcessData_ascii_witness :
  let out := Processed (fst (ProcessData (fun s => s) {| Data := "Hello, gRPC!" |})) in
  String.length out = String.length "Hello, gRPC!" /\
  strings.allASCII out = true /\
  ProcessData (fun s => s) {| Data := out |} =
  ProcessData (fun s => s) {| Data := "Hello, gRPC!" |}.
Proof. apply (ProcessData_ascii (fun s => s) "Hello, gRPC!"). reflexivity. Defined.

(** ** [SayHello] *)

Lemma append_cons (x : ascii) (a b : string) :
  String x a +:+ b = String x (a +:+ b).
Proof. reflexivity. Qed.

Lemma append_inj_r (a b c : string) : a +:+ b = a +:+ c -> b = c.
Proof.
  induction a as [|x a IH]; intros H; [exact H|].
  rewrite !append_cons in H. inversion H. auto.
Qed.

Lemma append_length (a b : string) :
  String.length (a +:+ b) = String.length a + String.length b.
Proof.
  induction a as [|x a IH]; [reflexivity|].
  rewrite append_cons. cbn [String.length Nat.add]. congruence.
Qed.

Lemma append_inj_l (a b c : string) : a +:+ c = b +:+ c -> a = b.
Proof.
  revert b. induction a as [|x a IH]; intros b H.
  - destruct b as [|y b]; [reflexivity|].
    apply (f_equal String.length) in H.
    rewrite !append_length in H. cbn [String.length] in H. lia.
  - destruct b as [|y b].
    + apply (f_equal String.length) in H.
      rewrite !append_length in H. cbn [String.length] in H. lia.
    + rewrite !append_cons in H. inversion H. f_equal. auto.
Qed.

(** X14. [SayHello] never fails, and its greeting identifies the name:
    two requests get the same message only if they carry the same
    name. *)
Theorem SayHello_injective (r1 r2 : HelloRequest) :
  snd (SayHello r1) = None /\
  (Message (fst (SayHello r1)) = Message (fst (SayHello r2)) -> Name r1 = Name r2).
Proof.
  split; [reflexivity|]. unfold SayHello. cbn [fst Message]. intros H.
  apply append_inj_r in H. apply append_inj_l in H. exact H.
Qed.

(** ** Invariants that depend on the order of assignments *)

Ltac use_stableButReady H :=
  let H1 := fresh in
  destruct H as (?H1 & ?H1 & ?H1 & ?H1 & ?H1 & ?H1 & ?H1 & ?H1).

Section Invariant.
Variable P : UltraMultiplexer -> Prop.
Hypothesis HP : stableButReady P.
Hypothesis Hclient : forall w, preserves P (initGRPCClient w).

Lemma kept_Lock : preserves P Lock.
Proof. use_stableButReady HP. unfold Lock. preserve. Qed.

Lemma kept_Unlock : preserves P Unlock.
Proof. use_stableButReady HP. unfold Unlock. preserve. Qed.

Lemma kept_RLock : preserves P RLock.
Proof. use_stableButReady HP. unfold RLock. preserve. Qed.

Lemma kept_RUnlock : preserves P RUnlock.
Proof. use_stableButReady HP. unfold RUnlock. preserve. Qed.

Lemma kept_startMux : preserves P startMux.
Proof.
  pose proof kept_Lock. pose proof kept_Unlock. use_stableButReady HP.
  unfold startMux. preserve.
Qed.

Lemma kept_waitLoop (w : World) (n : nat) : preserves P (waitLoop w n).
Proof.
  induction n as [|n IH]; cbn [waitLoop]; unfold checkHTTPReady, checkGRPCReady;
    preserve.
Qed.

Lemma kept_Start (w : World) : preserves P (Start w).
Proof.
  pose proof kept_startMux. pose proof (kept_waitLoop w maxAttempts).
  pose proof (Hclient w).
  unfold Start, waitForServerReady. preserve.
Qed.

Lemma kept_Initialize (w : World) : preserves P (Initialize w).
Proof.
  use_stableButReady HP. unfold Initialize, muxMatch. preserve.
Qed.

Lemma kept_Stop : preserves P Stop.
Proof.
  pose proof kept_Lock. pose proof kept_Unlock. use_stableButReady HP.
  unfold Stop, closeIfSet. preserve.
Qed.

Lemma kept_isGRPCClientReady : preserves P isGRPCClientReady.
Proof.
  pose proof kept_RLock. pose proof kept_RUnlock.
  unfold isGRPCClientReady. preserve.
Qed.

Lemma kept_ServeHTTP (w : World) (rw : ResponseWriter) (r : Request) :
  preserves P (ServeHTTP w rw r).
Proof.
  pose proof kept_isGRPCClientReady.
  unfold ServeHTTP, healthCheck, proxyRequest, defaultHandler, callGRPC,
    clientSayHello.
  preserve.
Qed.

Lemma kept_exec (w : World) (op : Op) : preserves P (exec w op).
Proof.
  pose proof (kept_Initialize w). pose proof kept_startMux.
  pose proof (kept_waitLoop w maxAttempts). pose proof (Hclient w).
  pose proof kept_isGRPCClientReady. pose proof (kept_Start w).
  pose proof kept_Stop.
  destruct op; unfold exec, waitForServerReady, checkHTTPReady, checkGRPCReady;
    preserve.
  apply kept_ServeHTTP.
Qed.

Lemma kept_execs (w : World) (ops : list Op) : preserves P (execs w ops).
Proof.
  induction ops as [|op ops IH]; cbn [execs].
  - apply preserves_ret.
  - apply preserves_bind; [apply kept_exec | intros _; exact IH].
Qed.
End Invariant.

Lemma handlersSafe_stable : stableButReady handlersSafe.
Proof.
  unfold handlersSafe, clientInv.
  repeat split; intros; destruct s; cbn in *; try tauto; try discriminate.
Qed.

Lemma handlersSafe_initGRPCClient (w : World) : preserves handlersSafe (initGRPCClient w).
Proof.
  intros m [Hinv Hhttp]. rewrite initGRPCClient_run. cbv zeta.
  assert (Hup : forall b s, grpcClient s <> None -> httpClient s <> None ->
                            handlersSafe (set_serverReady b s)).
  { intros b s H1 H2. split; [intros _|]; destruct s; assumption. }
  assert (Hcl : forall s, httpClient s <> None ->
                          handlersSafe (set_grpcClient (Some NewUltraServiceClient) s)).
  { intros s H. split; [intros _; destruct s; discriminate | destruct s; exact H]. }
  assert (Hconn : forall v s, handlersSafe s -> handlersSafe (set_grpcConn v s)).
  { intros v s [H1 H2]. split; [intros H; destruct s; apply H1, H | destruct s; exact H2]. }
  destruct (dialErr w (now m) _); cbn [fst snd um].
  - split; [split; assumption|]. constructor; [split; assumption | constructor].
  - assert (H1 : handlersSafe (set_grpcConn (Some Open) (um m))).
    { apply Hconn. split; assumption. }
    assert (H2 : handlersSafe (set_grpcClient (Some NewUltraServiceClient)
                                 (set_grpcConn (Some Open) (um m)))).
    { apply Hcl. destruct m as [[] ?]; exact Hhttp. }
    assert (H3 : handlersSafe (set_serverReady true
                                 (set_grpcClient (Some NewUltraServiceClient)
                                    (set_grpcConn (Some Open) (um m))))).
    { apply Hup; destruct m as [[] ?]; [discriminate | exact Hhttp]. }
    split; [exact H3|]. unfold clientConstruction.
    constructor; [split; assumption|]. constructor; [exact H1|].
    constructor; [exact H2|]. constructor; [exact H3|]. constructor.
Qed.

Lemma ServeHTTP_no_panic (w : World) (rw : ResponseWriter) (r : Request) (m : Machine) :
  handlersSafe (um m) ->
  forall msg, fst (fst (ServeHTTP w rw r m)) <> Crashed msg.
Proof.
  intros [Hinv Hhttp] msg. unfold ServeHTTP.
  destruct (String.eqb (Path r) "/health").
  { rewrite healthCheck_run. discriminate. }
  destruct (String.eqb (Path r) "/proxy").
  { destruct (String.eqb (Get (Query r) "target") "") eqn:Ht.
    - unfold proxyRequest. rewrite Ht. discriminate.
    - apply String.eqb_neq in Ht.
      rewrite (proxyRequest_fetch w rw r m Ht Hhttp). discriminate. }
  destruct (String.eqb (Path r) "/grpc-call"); [|discriminate].
  destruct (mu (um m)) eqn:Hmu.
  - destruct (callGRPC_run w rw r m) as (t & Hrun & _); [congruence | exact Hinv |].
    cbv zeta in Hrun. rewrite Hrun. discriminate.
  - assert (Hb : callGRPC w rw r m = (Blocked, m, [])).
    { destruct m as [s n]; destruct s; cbn [um mu] in Hmu; subst. reflexivity. }
    rewrite Hb. discriminate.
  - destruct (callGRPC_run w rw r m) as (t & Hrun & _); [congruence | exact Hinv |].
    cbv zeta in Hrun. rewrite Hrun. discriminate.
Qed.


(** ** The mutex is given back *)

Lemma startMux_blocked_on_lock (m : Machine) :
  mu (um m) <> Unlocked -> startMux m = (Blocked, m, []).
Proof.
  intros Hmu. destruct m as [s n]; destruct s; cbn [um mu] in Hmu.
  destruct mu0; [congruence| |]; reflexivity.
Qed.

Lemma Stop_blocked_on_lock (m : Machine) :
  mu (um m) <> Unlocked -> Stop m = (Blocked, m, []).
Proof.
  intros Hmu. destruct m as [s n]; destruct s; cbn [um mu] in Hmu.
  destruct mu0; [congruence| |]; reflexivity.
Qed.

Lemma discard_returned {A} (c : M A) (m : Machine) :
  fst (fst (discard c m)) = Returned tt ->
  (exists a, fst (fst (c m)) = Returned a) /\
  snd (fst (discard c m)) = snd (fst (c m)).
Proof.
  unfold discard. rewrite bind_run.
  destruct (c m) as [[[a| |msg] m1] t1]; cbn [fst snd]; intros H;
    try discriminate.
  split; [eexists; reflexivity | reflexivity].
Qed.

(** X16. An operation that returns has given the mutex back: [um.mu] is
    after it what it was before it, for every operation of the program
    and every state and world. (No lock is left held, and none is
    released that was not taken.) *)
Theorem locks_balanced (w : World) (op : Op) (m : Machine) :
  fst (fst (exec w op m)) = Returned tt ->
  mu (um (snd (fst (exec w op m)))) = mu (um m).
Proof.
  destruct op; cbn [exec]; intros Hret.
  - (* Initialize *)
    apply discard_returned in Hret as [_ ->].
    destruct (listenErr w (":" +:+ port (um m))) as [e|] eqn:Hl.
    + rewrite (Initialize_refused w m e Hl). reflexivity.
    + destruct (Initialize_run w m Hl)
        as (m' & t & -> & _ & _ & _ & _ & _ & (Hmu & _) & _).
      exact Hmu.
  - (* startMux *)
    destruct (mu (um m)) eqn:Hmu.
    + destruct (startMux_run m Hmu) as (t1 & -> & _).
      cbn [fst snd um]. destruct m as [[] ?]; exact Hmu.
    + rewrite startMux_blocked_on_lock in Hret by congruence. discriminate.
    + rewrite startMux_blocked_on_lock in Hret by congruence. discriminate.
  - (* waitForServerReady *)
    apply discard_returned in Hret as [_ ->]. unfold waitForServerReady.
    destruct (waitLoop_run w maxAttempts m) as (t & _ & Hrun). cbv zeta in Hrun.
    destruct (firstPass w _ (now m) maxAttempts); destruct Hrun as [-> _]; reflexivity.
  - (* checkHTTPReady *)
    apply discard_returned in Hret as [_ ->]. rewrite checkHTTPReady_run. reflexivity.
  - (* checkGRPCReady *)
    apply discard_returned in Hret as [_ ->]. rewrite checkGRPCReady_run. reflexivity.
  - (* initGRPCClient *)
    apply discard_returned in Hret as [_ ->]. rewrite initGRPCClient_run. cbv zeta.
    destruct (dialErr w (now m) _); [reflexivity|]. destruct m as [[] ?]; reflexivity.
  - (* isGRPCClientReady *)
    apply discard_returned in Hret as [_ ->].
    rewrite (proj1 (readOnly_isGRPCClientReady m)). reflexivity.
  - (* Start *)
    apply discard_returned in Hret as [[a Ha] ->].
    destruct (mu (um m)) eqn:Hmu.
    + destruct (Start_run w m Hmu) as (t1 & tw & _ & _ & _ & Hrun).
      destruct (firstPass w _ (now m) maxAttempts) as [k|].
      * destruct Hrun as [_ Hrun].
        destruct (dialErr w (now m + k) _); rewrite Hrun in *; cbn [fst snd um] in *;
          [destruct m as [[] ?]; exact Hmu | discriminate].
      * destruct Hrun as [_ Hrun]. rewrite Hrun. cbn [fst snd um].
        destruct m as [[] ?]; exact Hmu.
    + rewrite Start_blocked_on_lock in Ha by congruence. discriminate.
    + rewrite Start_blocked_on_lock in Ha by congruence. discriminate.
  - (* Stop *)
    apply discard_returned in Hret as [[a Ha] ->].
    destruct (mu (um m)) eqn:Hmu.
    + destruct (Stop_run m Hmu) as (t & -> & _). cbn [fst snd um].
      destruct m as [[] ?]; exact Hmu.
    + rewrite Stop_blocked_on_lock in Ha by congruence. discriminate.
    + rewrite Stop_blocked_on_lock in Ha by congruence. discriminate.
  - (* ServeHTTP *)
    apply discard_returned in Hret as [_ ->].
    rewrite (proj1 (ServeHTTP_readOnly w rw r m)). reflexivity.
Qed.

Lemma locks_balanced_witness :
  mu (um (snd (fst (exec worldUp OpStop readyMachine)))) = mu (um readyMachine).
Proof. apply (locks_balanced worldUp OpStop readyMachine). vm_compute. reflexivity. Defined.
